(** * scripts/upgrade.py: the Helm chart upgrade script of hub23-deploy

    A shallow embedding of the [Upgrade] class.  The script is a straight
    line of external command invocations; everything it does to the outside
    world (log records, subprocesses, changes of working directory) is kept
    in an event trace, and the two things that can stop it (a command with a
    non-zero return code, a failing [os.chdir]) are results of an error
    monad over the process state. *)

From Stdlib Require Import String Ascii List ZArith Bool Arith Lia.
Import ListNotations.

Local Open Scope string_scope.
Local Open Scope list_scope.
Local Open Scope Z_scope.

(** ** Python values the script handles *)

(** The dictionary [run_cmd] returns: the script reads the keys
    ["returncode"], ["output"] and ["err_msg"] of it, nothing else. *)
Record CmdResult : Type := mkResult {
  returncode : Z;
  output : string;
  err_msg : string
}.

(** [vars(parse_args())]: the eight options of the command line, the string
    ones declared with [type=str], the flags with [action="store_true"]. *)
Record argsDict : Type := mkArgs {
  arg_hub_name : string;
  arg_chart_name : string;
  arg_cluster_name : string;
  arg_resource_group : string;
  arg_subscription : string;
  arg_identity : bool;
  arg_dry_run : bool;
  arg_debug : bool
}.

(** What [parse_args] returns on an empty command line: every [default=]
    of the parser, and [False] for the three [store_true] flags. *)
Definition parse_args_defaults : argsDict :=
  {| arg_hub_name := "hub23";
     arg_chart_name := "hub23-chart";
     arg_cluster_name := "hub23cluster";
     arg_resource_group := "Hub23";
     arg_subscription := "Turing-BinderHub";
     arg_identity := false;
     arg_dry_run := false;
     arg_debug := false |}.

(** The instance attributes of an [Upgrade] object. *)
Record Upgrade : Type := mkUpgrade {
  hub_name : string;
  chart_name : string;
  cluster_name : string;
  resource_group : string;
  subscription : string;
  identity : bool;
  dry_run : bool;
  debug : bool
}.

(** [Upgrade.__init__]: every attribute is copied from the dictionary. *)
Definition Upgrade_init (a : argsDict) : Upgrade :=
  {| hub_name := arg_hub_name a;
     chart_name := arg_chart_name a;
     cluster_name := arg_cluster_name a;
     resource_group := arg_resource_group a;
     subscription := arg_subscription a;
     identity := arg_identity a;
     dry_run := arg_dry_run a;
     debug := arg_debug a |}.

(** ** String helpers of the Python runtime *)

(** [sub in s] on [str]: some suffix of [s] starts with [sub]. *)
Fixpoint str_in (sub s : string) : bool :=
  String.prefix sub s ||
  match s with
  | EmptyString => false
  | String _ t => str_in sub t
  end.

(** [s.endswith(suf)]. *)
Definition endswith (s suf : string) : bool :=
  let n := String.length s in
  let k := String.length suf in
  (k <=? n)%nat && String.eqb (String.substring (n - k) k s) suf.

(** [os.path.join(a, b)] of [posixpath], for two components. *)
Definition os_path_join (a b : string) : string :=
  if String.prefix "/" b then b
  else if String.eqb a EmptyString || endswith a "/" then (a ++ b)%string
  else (a ++ "/" ++ b)%string.

(** [os.pardir]. *)
Definition os_pardir : string := "..".

(** The one-character string holding a double quote. *)
Definition dquote : string := String "034"%char EmptyString.

(** ** The process and its environment *)

Inductive level : Type := INFO | ERROR.

(** What the process does to the outside, in the order it does it: a record
    appended to [upgrade.log], a subprocess with the dictionary it came back
    with, a call of [os.chdir] with the directory it led to ([None] when the
    call raised). *)
Inductive event : Type :=
| Log (lvl : level) (msg : string)
| Run (cmd : list string) (result : CmdResult)
| Chdir (path : string) (now : option string).

(** The two exceptions that can leave [upgrade]: the script's own
    [raise Exception(result["err_msg"])], and the [OSError] of a failing
    [os.chdir]. *)
Inductive exn : Type :=
| Exception (msg : string)
| OSError (path : string).

(** The state of the running script: the object [bot], the current working
    directory and the trace so far. *)
Record process : Type := mkProcess {
  bot : Upgrade;
  cwd : string;
  trace : list event
}.

(** The outside world.  Both answers may depend on everything that happened
    before and on the working directory at the time of the call. *)
Record Env : Type := mkEnv {
  exec : list event -> string -> list string -> CmdResult;
  chdir : list event -> string -> string -> option string
}.

(** ** The monad of the script: state and exceptions *)

Definition M (A : Type) : Type := process -> (exn + A) * process.

Definition ret {A : Type} (a : A) : M A := fun p => (inr a, p).

Definition raise {A : Type} (e : exn) : M A := fun p => (inl e, p).

Definition bind {A B : Type} (m : M A) (k : A -> M B) : M B :=
  fun p =>
    match m p with
    | (inl e, p') => (inl e, p')
    | (inr a, p') => k a p'
    end.

Declare Scope script_scope.
Delimit Scope script_scope with script.
Notation "x <- m ;; k" := (bind m (fun x => k))
  (at level 61, m at next level, right associativity) : script_scope.
Notation "m ;; k" := (bind m (fun _ => k))
  (at level 61, right associativity) : script_scope.
Local Open Scope script_scope.

(** [self.<attribute>]. *)
Definition attr {A : Type} (f : Upgrade -> A) : M A :=
  fun p => (inr (f (bot p)), p).

Definition emit (e : event) : M unit :=
  fun p => (inr tt, {| bot := bot p; cwd := cwd p; trace := trace p ++ [e] |}).

(** [logging.info] and [logging.error]; the root logger is at level DEBUG,
    so both always write their record. *)
Definition logging_info (msg : string) : M unit := emit (Log INFO msg).
Definition logging_error (msg : string) : M unit := emit (Log ERROR msg).

Section Script.

Variable env : Env.

(** Modelled from the spec: [HubClass.run_command.run_cmd] is imported by
    the script and not part of it.  It runs the command to completion and
    returns its exit code, captured standard output and captured error
    text; which ones is up to the environment. *)
Definition run_cmd (cmd : list string) : M CmdResult :=
  fun p =>
    let r := exec env (trace p) (cwd p) cmd in
    (inr r, {| bot := bot p; cwd := cwd p; trace := trace p ++ [Run cmd r] |}).

(** [os.chdir(path)]: moves the process, or raises and leaves it where it
    is. *)
Definition os_chdir (path : string) : M unit :=
  fun p =>
    match chdir env (trace p) (cwd p) path with
    | Some d =>
        (inr tt, {| bot := bot p; cwd := d;
                    trace := trace p ++ [Chdir path (Some d)] |})
    | None =>
        (inl (OSError path),
         {| bot := bot p; cwd := cwd p;
            trace := trace p ++ [Chdir path None] |})
    end.

(** ** The methods of [Upgrade] *)

(** [Upgrade.login] *)
Definition login : M unit :=
  let login_cmd := ["az"; "login"] in
  identity_ <- attr identity ;;
  login_cmd <- (if identity_ : bool then
                  let login_cmd := login_cmd ++ ["--identity"] in
                  logging_info
                    "Logging into Azure with a Managed System Identity" ;;
                  ret login_cmd
                else
                  logging_info "Logging into Azure" ;;
                  ret login_cmd) ;;
  result <- run_cmd login_cmd ;;
  (if returncode result =? 0 then
     logging_info "Successfully logged into Azure"
   else
     logging_error (err_msg result) ;;
     raise (Exception (err_msg result))) ;;
  (* Set Azure subscription *)
  subscription_ <- attr subscription ;;
  logging_info ("Setting Azure subscription: " ++ subscription_)%string ;;
  let sub_cmd := ["az"; "account"; "set"; "-s"] in
  let sub_cmd :=
    if str_in " " subscription_ then
      sub_cmd ++ [(dquote ++ subscription_ ++ dquote)%string]
    else
      sub_cmd ++ [subscription_] in
  result <- run_cmd sub_cmd ;;
  (if returncode result =? 0 then
     logging_info
       ("Successfully set Azure subscription: " ++ subscription_)%string
   else
     logging_error (err_msg result) ;;
     raise (Exception (err_msg result))) ;;
  (* Set kubectl context *)
  cluster_name_ <- attr cluster_name ;;
  logging_info ("Setting kubectl context for: " ++ cluster_name_)%string ;;
  resource_group_ <- attr resource_group ;;
  let cmd := ["az"; "aks"; "get-credentials";
              "-n"; cluster_name_; "-g"; resource_group_] in
  result <- run_cmd cmd ;;
  (if returncode result =? 0 then
     logging_info (output result)
   else
     logging_error (err_msg result) ;;
     raise (Exception (err_msg result))) ;;
  (* Initialise Helm *)
  logging_info "Initialising Helm" ;;
  let cmd := ["helm"; "init"; "--client-only"] in
  result <- run_cmd cmd ;;
  (if returncode result =? 0 then
     logging_info (output result)
   else
     logging_error (err_msg result) ;;
     raise (Exception (err_msg result))).

(** [Upgrade.update_local_chart] *)
Definition update_local_chart : M unit :=
  chart_name_ <- attr chart_name ;;
  logging_info
    ("Updating local chart dependencies: " ++ chart_name_)%string ;;
  os_chdir chart_name_ ;;
  let update_cmd := ["helm"; "dependency"; "update"] in
  result <- run_cmd update_cmd ;;
  (if returncode result =? 0 then
     logging_info (output result)
   else
     logging_error (err_msg result) ;;
     raise (Exception (err_msg result))) ;;
  os_chdir os_pardir.

(** [Upgrade.print_pods] *)
Definition print_pods : M unit :=
  logging_info "Fetching the Kubernetes pods" ;;
  hub_name_ <- attr hub_name ;;
  let cmd := ["kubectl"; "get"; "pods"; "-n"; hub_name_] in
  result <- run_cmd cmd ;;
  (if returncode result =? 0 then
     logging_info (output result)
   else
     logging_error (err_msg result) ;;
     raise (Exception (err_msg result))).

(** [Upgrade.upgrade] *)
Definition upgrade : M unit :=
  dry_run_ <- attr dry_run ;;
  (if dry_run_ : bool then
     logging_info "THIS IS A DRY-RUN. HELM CHART WILL NOT BE UPGRADED."
   else ret tt) ;;
  (* Login to Azure and update Helm Chart *)
  login ;;
  update_local_chart ;;
  (* Helm Upgrade Command *)
  hub_name_ <- attr hub_name ;;
  chart_name_ <- attr chart_name ;;
  let helm_upgrade_cmd :=
    ["helm"; "upgrade"; hub_name_; chart_name_;
     "-f"; os_path_join "deploy" "prod.yaml";
     "-f"; os_path_join ".secret" "prod.yaml";
     "--wait"] in
  dry_run_ <- attr dry_run ;;
  debug_ <- attr debug ;;
  helm_upgrade_cmd <-
    (if dry_run_ && debug_ then
       let helm_upgrade_cmd := helm_upgrade_cmd ++ ["--dry-run"; "--debug"] in
       logging_info
         "Performing a dry-run helm upgrade with debugging output" ;;
       ret helm_upgrade_cmd
     else if dry_run_ && negb debug_ then
       let helm_upgrade_cmd := helm_upgrade_cmd ++ ["--dry-run"] in
       logging_info "Performing a dry-run helm upgrade" ;;
       ret helm_upgrade_cmd
     else if negb dry_run_ && debug_ then
       let helm_upgrade_cmd := helm_upgrade_cmd ++ ["--debug"] in
       logging_info "Performing a helm upgrade with debugging output" ;;
       ret helm_upgrade_cmd
     else
       logging_info "Upgrading helm chart" ;;
       ret helm_upgrade_cmd) ;;
  result <- run_cmd helm_upgrade_cmd ;;
  (if returncode result =? 0 then
     logging_info (output result)
   else
     logging_error (err_msg result) ;;
     raise (Exception (err_msg result))) ;;
  print_pods.

End Script.

(** The [__main__] block, after [parse_args]: a fresh object, a process
    with an empty trace in directory [dir], one call of [upgrade]. *)
Definition main (env : Env) (args : argsDict) (dir : string)
  : (exn + unit) * process :=
  let bot := Upgrade_init args in
  upgrade env {| bot := bot; cwd := dir; trace := [] |}.

(** ** Observing a run *)

(** The events a method added to the trace: what is in the trace of the
    final state [p'] and was not yet in the one of the initial state [p]. *)
Definition emitted (p p' : process) : list event :=
  skipn (length (trace p)) (trace p').

(** The subprocesses of a trace with what they returned, oldest first. *)
Fixpoint runs (tr : list event) : list (list string * CmdResult) :=
  match tr with
  | [] => []
  | Run cmd r :: tr' => (cmd, r) :: runs tr'
  | _ :: tr' => runs tr'
  end.

(** The argument lists handed to [run_cmd], oldest first. *)
Definition commands (tr : list event) : list (list string) :=
  map fst (runs tr).

(** The calls of [os.chdir] of a trace, oldest first. *)
Fixpoint chdirs (tr : list event) : list (string * option string) :=
  match tr with
  | [] => []
  | Chdir path now :: tr' => (path, now) :: chdirs tr'
  | _ :: tr' => chdirs tr'
  end.

(** Every subprocess of the trace returned zero. *)
Definition commands_succeeded (tr : list event) : Prop :=
  forall cmd r, In (cmd, r) (runs tr) -> returncode r = 0.

(** No [os.chdir] of the trace raised. *)
Definition chdirs_succeeded (tr : list event) : Prop :=
  forall path, ~ In (path, None) (chdirs tr).

(** The seven command lines [upgrade] hands to [run_cmd] when nothing stops
    it, in program order: [login_cmd], [sub_cmd], the two [cmd] of [login],
    [update_cmd], [helm_upgrade_cmd] and the [cmd] of [print_pods]. *)
Definition upgrade_commands (u : Upgrade) : list (list string) :=
  [ ["az"; "login"] ++ (if identity u then ["--identity"] else []);
    ["az"; "account"; "set"; "-s";
     if str_in " " (subscription u)
     then (dquote ++ subscription u ++ dquote)%string
     else subscription u];
    ["az"; "aks"; "get-credentials";
     "-n"; cluster_name u; "-g"; resource_group u];
    ["helm"; "init"; "--client-only"];
    ["helm"; "dependency"; "update"];
    ["helm"; "upgrade"; hub_name u; chart_name u;
     "-f"; "deploy/prod.yaml"; "-f"; ".secret/prod.yaml"; "--wait"]
    ++ (if dry_run u then ["--dry-run"] else [])
    ++ (if debug u then ["--debug"] else []);
    ["kubectl"; "get"; "pods"; "-n"; hub_name u] ].

(** The same object with another value of one flag. *)
Definition set_identity (b : bool) (u : Upgrade) : Upgrade :=
  {| hub_name := hub_name u; chart_name := chart_name u;
     cluster_name := cluster_name u; resource_group := resource_group u;
     subscription := subscription u; identity := b;
     dry_run := dry_run u; debug := debug u |}.

Definition set_dry_run (b : bool) (u : Upgrade) : Upgrade :=
  {| hub_name := hub_name u; chart_name := chart_name u;
     cluster_name := cluster_name u; resource_group := resource_group u;
     subscription := subscription u; identity := identity u;
     dry_run := b; debug := debug u |}.

(** A process that is about to call a method of the object [u]. *)
Definition fresh (u : Upgrade) (dir : string) : process :=
  {| bot := u; cwd := dir; trace := [] |}.

(** The same process with another object. *)
Definition with_bot (u : Upgrade) (p : process) : process :=
  {| bot := u; cwd := cwd p; trace := trace p |}.

(** The same process, the object having another value of one flag. *)
Definition with_identity (b : bool) (p : process) : process :=
  with_bot (set_identity b (bot p)) p.

Definition with_dry_run (b : bool) (p : process) : process :=
  with_bot (set_dry_run b (bot p)) p.

(** ** Environments *)

(** An environment that answers by position: the [k]-th subprocess of the
    process returns [rs k] and the [k]-th [os.chdir] leads to [ds k],
    whatever the command line and the path are. *)
Definition scripted (rs : nat -> CmdResult) (ds : nat -> option string)
  : Env :=
  {| exec := fun tr _ _ => rs (length (runs tr));
     chdir := fun tr _ _ => ds (length (chdirs tr)) |}.

Definition ok_result : CmdResult :=
  {| returncode := 0; output := "done"; err_msg := EmptyString |}.

Definition failed_result : CmdResult :=
  {| returncode := 1; output := EmptyString; err_msg := "command failed" |}.

(** A deployment checkout in [/srv/hub23-deploy] where every tool works. *)
Definition ok_env : Env :=
  {| exec := fun _ _ _ => ok_result;
     chdir := fun _ d path =>
       if String.eqb path os_pardir then Some "/srv/hub23-deploy"
       else Some (os_path_join d path) |}.

(** The same checkout, with the [k]-th subprocess failing. *)
Definition failing_env (k : nat) : Env :=
  {| exec := fun tr _ _ =>
       if Nat.eqb (length (runs tr)) k then failed_result else ok_result;
     chdir := chdir ok_env |}.

(** Every tool works, but the chart directory is not there: [os.chdir]
    raises [FileNotFoundError]. *)
Definition no_chart_env : Env :=
  {| exec := fun _ _ _ => ok_result;
     chdir := fun _ _ _ => None |}.

(** Every tool works and the chart directory is there, but the way back is
    not: [os.chdir(os.pardir)] raises. *)
Definition no_parent_env : Env :=
  {| exec := fun _ _ _ => ok_result;
     chdir := fun _ d path =>
       if String.eqb path os_pardir then None
       else Some (os_path_join d path) |}.

Definition srv : string := "/srv/hub23-deploy".

(** ** The script as a list of actions

    Every method is a straight line of three kinds of statements: a record
    logged at level INFO, a subprocess followed by the check of its return
    code, a change of directory.  [play] runs such a line; the methods are
    proved below to be the lines [login_script], [update_script],
    [upgrade_script] and [pods_script], so that what holds of every line
    holds of them. *)

Inductive action : Type :=
| ALog (msg : string)
| ARun (cmd : list string) (okmsg : CmdResult -> string)
| AChdir (path : string).

(** [play env acts tr d]: the outcome, the final directory and the events
    of the actions [acts], started with trace [tr] in directory [d]. *)
Fixpoint play (env : Env) (acts : list action) (tr : list event) (d : string)
  : (exn + unit) * string * list event :=
  match acts with
  | [] => (inr tt, d, [])
  | ALog msg :: acts' =>
      let '(res, d', ev) := play env acts' (tr ++ [Log INFO msg]) d in
      (res, d', Log INFO msg :: ev)
  | ARun cmd okmsg :: acts' =>
      let r := exec env tr d cmd in
      if returncode r =? 0 then
        let '(res, d', ev) :=
          play env acts' ((tr ++ [Run cmd r]) ++ [Log INFO (okmsg r)]) d in
        (res, d', Run cmd r :: Log INFO (okmsg r) :: ev)
      else
        (inl (Exception (err_msg r)), d,
         [Run cmd r; Log ERROR (err_msg r)])
  | AChdir path :: acts' =>
      match chdir env tr d path with
      | Some d1 =>
          let '(res, d', ev) :=
            play env acts' (tr ++ [Chdir path (Some d1)]) d1 in
          (res, d', Chdir path (Some d1) :: ev)
      | None => (inl (OSError path), d, [Chdir path None])
      end
  end.

(** The result of [play] with one more event in front. *)
Definition push (e : event) (x : (exn + unit) * string * list event)
  : (exn + unit) * string * list event :=
  (fst (fst x), snd (fst x), e :: snd x).

(** [play] as a method: the object is left alone, the events are appended
    to the trace. *)
Definition replay (env : Env) (acts : list action) : M unit :=
  fun p =>
    let '(res, d, ev) := play env acts (trace p) (cwd p) in
    (res, {| bot := bot p; cwd := d; trace := trace p ++ ev |}).

(** The command lines of a list of actions, in order. *)
Fixpoint script_commands (acts : list action) : list (list string) :=
  match acts with
  | [] => []
  | ARun cmd _ :: acts' => cmd :: script_commands acts'
  | _ :: acts' => script_commands acts'
  end.

(** What is left of a list of actions when the logging is dropped and of a
    subprocess only the fact that there is one is kept. *)
Inductive step : Type :=
| SRun
| SChdir (path : string).

Fixpoint skeleton (acts : list action) : list step :=
  match acts with
  | [] => []
  | ALog _ :: acts' => skeleton acts'
  | ARun _ _ :: acts' => SRun :: skeleton acts'
  | AChdir path :: acts' => SChdir path :: skeleton acts'
  end.

Definition login_script (u : Upgrade) : list action :=
  [ALog (if identity u
         then "Logging into Azure with a Managed System Identity"
         else "Logging into Azure");
   ARun (["az"; "login"] ++ (if identity u then ["--identity"] else []))
        (fun _ => "Successfully logged into Azure");
   ALog ("Setting Azure subscription: " ++ subscription u)%string;
   ARun (["az"; "account"; "set"; "-s"] ++
         [if str_in " " (subscription u)
          then (dquote ++ subscription u ++ dquote)%string
          else subscription u])
        (fun _ =>
           ("Successfully set Azure subscription: " ++ subscription u)%string);
   ALog ("Setting kubectl context for: " ++ cluster_name u)%string;
   ARun ["az"; "aks"; "get-credentials";
         "-n"; cluster_name u; "-g"; resource_group u] output;
   ALog "Initialising Helm";
   ARun ["helm"; "init"; "--client-only"] output].

Definition update_script (u : Upgrade) : list action :=
  [ALog ("Updating local chart dependencies: " ++ chart_name u)%string;
   AChdir (chart_name u);
   ARun ["helm"; "dependency"; "update"] output;
   AChdir os_pardir].

(** The flags appended to the upgrade command and the record logged with
    them, by the branch of the [if] ... [elif] ... [else] that is taken. *)
Definition upgrade_flags (u : Upgrade) : list string :=
  match dry_run u, debug u with
  | true, true => ["--dry-run"; "--debug"]
  | true, false => ["--dry-run"]
  | false, true => ["--debug"]
  | false, false => []
  end.

Definition upgrade_message (u : Upgrade) : string :=
  match dry_run u, debug u with
  | true, true => "Performing a dry-run helm upgrade with debugging output"
  | true, false => "Performing a dry-run helm upgrade"
  | false, true => "Performing a helm upgrade with debugging output"
  | false, false => "Upgrading helm chart"
  end.

Definition upgrade_script (u : Upgrade) : list action :=
  [ALog (upgrade_message u);
   ARun (["helm"; "upgrade"; hub_name u; chart_name u;
          "-f"; "deploy/prod.yaml"; "-f"; ".secret/prod.yaml"; "--wait"]
         ++ upgrade_flags u) output].

Definition pods_script (u : Upgrade) : list action :=
  [ALog "Fetching the Kubernetes pods";
   ARun ["kubectl"; "get"; "pods"; "-n"; hub_name u] output].

Definition script (u : Upgrade) : list action :=
  (if dry_run u
   then [ALog "THIS IS A DRY-RUN. HELM CHART WILL NOT BE UPGRADED."]
   else []) ++
  login_script u ++ update_script u ++ upgrade_script u ++ pods_script u.


(** What a scripted environment makes of a skeleton: the outcome, the final
    directory, the dictionaries returned and the changes of directory, when
    [nr] subprocesses and [nc] calls of [os.chdir] came before. *)
Fixpoint play_skel (rs : nat -> CmdResult) (ds : nat -> option string)
    (sk : list step) (nr nc : nat) (d : string)
  : (exn + unit) * string * list CmdResult * list (string * option string) :=
  match sk with
  | [] => (inr tt, d, [], [])
  | SRun :: sk' =>
      let r := rs nr in
      if returncode r =? 0 then
        let '(res, d', out, cds) := play_skel rs ds sk' (S nr) nc d in
        (res, d', r :: out, cds)
      else (inl (Exception (err_msg r)), d, [r], [])
  | SChdir path :: sk' =>
      match ds nc with
      | Some d1 =>
          let '(res, d', out, cds) := play_skel rs ds sk' nr (S nc) d1 in
          (res, d', out, (path, Some d1) :: cds)
      | None => (inl (OSError path), d, [], [(path, None)])
      end
  end.

(** ** Command lines and processes used as examples *)

(** [--dry-run] *)
Definition dry_run_args : argsDict :=
  {| arg_hub_name := "hub23";
     arg_chart_name := "hub23-chart";
     arg_cluster_name := "hub23cluster";
     arg_resource_group := "Hub23";
     arg_subscription := "Turing-BinderHub";
     arg_identity := false;
     arg_dry_run := true;
     arg_debug := false |}.

(** [-n demo] *)
Definition demo_args : argsDict :=
  {| arg_hub_name := "demo";
     arg_chart_name := "hub23-chart";
     arg_cluster_name := "hub23cluster";
     arg_resource_group := "Hub23";
     arg_subscription := "Turing-BinderHub";
     arg_identity := false;
     arg_dry_run := false;
     arg_debug := false |}.

(** [-s "Turing BinderHub" --identity --debug] *)
Definition spaced_args : argsDict :=
  {| arg_hub_name := "hub23";
     arg_chart_name := "hub23-chart";
     arg_cluster_name := "hub23cluster";
     arg_resource_group := "Hub23";
     arg_subscription := "Turing BinderHub";
     arg_identity := true;
     arg_dry_run := false;
     arg_debug := true |}.

(** The script started in the checkout with each of these command lines,
    after [parse_args] and [__init__]. *)
Definition default_process : process :=
  fresh (Upgrade_init parse_args_defaults) srv.

Definition dry_run_process : process :=
  fresh (Upgrade_init dry_run_args) srv.

Definition demo_process : process :=
  fresh (Upgrade_init demo_args) srv.

Definition spaced_process : process :=
  fresh (Upgrade_init spaced_args) srv.

(** ** More to observe in a trace *)

(** The texts logged at level ERROR, oldest first. *)
Fixpoint errors (tr : list event) : list string :=
  match tr with
  | [] => []
  | Log ERROR msg :: tr' => msg :: errors tr'
  | _ :: tr' => errors tr'
  end.

(** Every subprocess with what it returned and the event that comes right
    after it, if there is one. *)
Fixpoint checks (tr : list event)
  : list (list string * CmdResult * option event) :=
  match tr with
  | [] => []
  | Run cmd r :: tr' => (cmd, r, hd_error tr') :: checks tr'
  | _ :: tr' => checks tr'
  end.

(** Every subprocess with the event that comes right before it, [prev]
    being the event before the trace. *)
Fixpoint announced (prev : option event) (tr : list event)
  : list (option event * list string) :=
  match tr with
  | [] => []
  | Run cmd r :: tr' => (prev, cmd) :: announced (Some (Run cmd r)) tr'
  | e :: tr' => announced (Some e) tr'
  end.

(** ** The dictionary [__init__] is given *)

(** The values the command line can put in the namespace. *)
Inductive pyval : Type :=
| PStr (s : string)
| PBool (b : bool).

(** A [dict] with string keys, in insertion order; a key occurs once when
    the dictionary is built with [setitem]. *)
Definition pydict : Type := list (string * pyval).

(** [d.get(key)]: [None] where [d[key]] raises [KeyError]. *)
Fixpoint getitem (d : pydict) (key : string) : option pyval :=
  match d with
  | [] => None
  | (k, v) :: d' => if String.eqb k key then Some v else getitem d' key
  end.

(** [d[key] = v] *)
Fixpoint setitem (d : pydict) (key : string) (v : pyval) : pydict :=
  match d with
  | [] => [(key, v)]
  | (k, x) :: d' =>
      if String.eqb k key then (k, v) :: d' else (k, x) :: setitem d' key v
  end.

(** The attributes of an [Upgrade] object as [__init__] stores them:
    whatever the dictionary holds. *)
Record attributes : Type := mkAttributes {
  self_hub_name : pyval;
  self_chart_name : pyval;
  self_cluster_name : pyval;
  self_resource_group : pyval;
  self_subscription : pyval;
  self_identity : pyval;
  self_dry_run : pyval;
  self_debug : pyval
}.

(** [Upgrade.__init__] on a dictionary: eight subscriptions in program
    order, the first missing key raising [KeyError]. *)
Definition Upgrade_init_dict (d : pydict) : string + attributes :=
  match getitem d "hub_name" with
  | None => inl "hub_name"
  | Some hub_name_ =>
  match getitem d "chart_name" with
  | None => inl "chart_name"
  | Some chart_name_ =>
  match getitem d "cluster_name" with
  | None => inl "cluster_name"
  | Some cluster_name_ =>
  match getitem d "resource_group" with
  | None => inl "resource_group"
  | Some resource_group_ =>
  match getitem d "subscription" with
  | None => inl "subscription"
  | Some subscription_ =>
  match getitem d "identity" with
  | None => inl "identity"
  | Some identity_ =>
  match getitem d "dry_run" with
  | None => inl "dry_run"
  | Some dry_run_ =>
  match getitem d "debug" with
  | None => inl "debug"
  | Some debug_ =>
      inr {| self_hub_name := hub_name_;
             self_chart_name := chart_name_;
             self_cluster_name := cluster_name_;
             self_resource_group := resource_group_;
             self_subscription := subscription_;
             self_identity := identity_;
             self_dry_run := dry_run_;
             self_debug := debug_ |}
  end end end end end end end end.

(** [key not in d] *)
Definition missing (d : pydict) (key : string) : bool :=
  match getitem d key with
  | None => true
  | Some _ => false
  end.

(** The attributes of an object whose strings are strings and whose flags
    are booleans. *)
Definition dynamic (u : Upgrade) : attributes :=
  {| self_hub_name := PStr (hub_name u);
     self_chart_name := PStr (chart_name u);
     self_cluster_name := PStr (cluster_name u);
     self_resource_group := PStr (resource_group u);
     self_subscription := PStr (subscription u);
     self_identity := PBool (identity u);
     self_dry_run := PBool (dry_run u);
     self_debug := PBool (debug u) |}.

(** [vars(args)] for a namespace with the eight options. *)
Definition vars (ns : argsDict) : pydict :=
  [("hub_name", PStr (arg_hub_name ns));
   ("chart_name", PStr (arg_chart_name ns));
   ("cluster_name", PStr (arg_cluster_name ns));
   ("resource_group", PStr (arg_resource_group ns));
   ("subscription", PStr (arg_subscription ns));
   ("identity", PBool (arg_identity ns));
   ("dry_run", PBool (arg_dry_run ns));
   ("debug", PBool (arg_debug ns))].

(** ** The parser of [parse_args] *)

(** The two actions the parser uses: [store], its arguments all having
    [type=str], and [store_true]. *)
Inductive Action : Type := store | store_true.

(** One call of [parser.add_argument]. *)
Record Argument : Type := mkArgument {
  option_strings : list string;
  arg_action : Action;
  arg_default : pyval
}.

(** The eight calls, in program order; the default of a [store_true]
    argument is [False]. *)
Definition parser_arguments : list Argument :=
  [ {| option_strings := ["-n"; "--hub-name"];
       arg_action := store; arg_default := PStr "hub23" |};
    {| option_strings := ["-z"; "--chart-name"];
       arg_action := store; arg_default := PStr "hub23-chart" |};
    {| option_strings := ["-c"; "--cluster-name"];
       arg_action := store; arg_default := PStr "hub23cluster" |};
    {| option_strings := ["-g"; "--resource-group"];
       arg_action := store; arg_default := PStr "Hub23" |};
    {| option_strings := ["-s"; "--subscription"];
       arg_action := store; arg_default := PStr "Turing-BinderHub" |};
    {| option_strings := ["--identity"];
       arg_action := store_true; arg_default := PBool false |};
    {| option_strings := ["--dry-run"];
       arg_action := store_true; arg_default := PBool false |};
    {| option_strings := ["--debug"];
       arg_action := store_true; arg_default := PBool false |} ].

(** [s.lstrip(c)] and [s.replace(a, b)] for one character. *)
Fixpoint lstrip (c : ascii) (s : string) : string :=
  match s with
  | EmptyString => EmptyString
  | String a t => if Ascii.eqb a c then lstrip c t else s
  end.

Fixpoint replace (a b : ascii) (s : string) : string :=
  match s with
  | EmptyString => EmptyString
  | String c t => String (if Ascii.eqb c a then b else c) (replace a b t)
  end.

(** The attribute an argument is stored under when no [dest] is given:
    argparse takes the first option string that starts with two dashes, or
    the first one when there is none, strips the leading dashes and turns
    the other dashes into underscores. *)
Definition get_dest (a : Argument) : string :=
  let long_option_strings :=
    filter (String.prefix "--") (option_strings a) in
  let dest_option_string :=
    match long_option_strings with
    | s :: _ => s
    | [] => hd EmptyString (option_strings a)
    end in
  replace "-" "_" (lstrip "-" dest_option_string).

(** The namespace before the command line is read: every argument's
    default under its attribute. *)
Definition namespace_defaults : pydict :=
  fold_left (fun ns a => setitem ns (get_dest a) (arg_default a))
    parser_arguments [].

(** What an action does to the namespace when its option is met: [store]
    puts the string that follows the option, [store_true] puts [True]. *)
Definition call_action (ns : pydict) (a : Argument) (arg_string : string)
  : pydict :=
  setitem ns (get_dest a)
    match arg_action a with
    | store => PStr arg_string
    | store_true => PBool true
    end.

(** The namespace [parse_args] returns when the command line made argparse
    meet the options [seen], in this order, each with the string that
    followed it (none is read for a [store_true]).  Which options a command
    line makes it meet is the library's business. *)
Definition parse_args_namespace (seen : list (Argument * string)) : pydict :=
  fold_left (fun ns o => call_action ns (fst o) (snd o)) seen
    namespace_defaults.

(** The option string [opt] is one of those of an option that was met. *)
Definition met (opt : string) (seen : list (Argument * string)) : bool :=
  existsb (fun o => existsb (String.eqb opt) (option_strings (fst o))) seen.

(** * The model at work *)

Example str_in_examples :
  str_in " " "Turing BinderHub" = true /\
  str_in " " "Turing-BinderHub" = false /\
  str_in " " EmptyString = false /\
  str_in "Hub" "Turing-BinderHub" = true.
Proof. repeat split; reflexivity. Qed.

Example os_path_join_examples :
  os_path_join "deploy" "prod.yaml" = "deploy/prod.yaml" /\
  os_path_join "deploy/" "prod.yaml" = "deploy/prod.yaml" /\
  os_path_join "deploy" "/etc/prod.yaml" = "/etc/prod.yaml" /\
  os_path_join EmptyString "prod.yaml" = "prod.yaml".
Proof. repeat split; reflexivity. Qed.

(** The script with no option, in a checkout where every tool works. *)
Example default_run :
  main ok_env parse_args_defaults srv =
  (inr tt,
   {| bot := Upgrade_init parse_args_defaults;
      cwd := "/srv/hub23-deploy";
      trace :=
        [Log INFO "Logging into Azure";
         Run ["az"; "login"] ok_result;
         Log INFO "Successfully logged into Azure";
         Log INFO "Setting Azure subscription: Turing-BinderHub";
         Run ["az"; "account"; "set"; "-s"; "Turing-BinderHub"] ok_result;
         Log INFO "Successfully set Azure subscription: Turing-BinderHub";
         Log INFO "Setting kubectl context for: hub23cluster";
         Run ["az"; "aks"; "get-credentials";
              "-n"; "hub23cluster"; "-g"; "Hub23"] ok_result;
         Log INFO "done";
         Log INFO "Initialising Helm";
         Run ["helm"; "init"; "--client-only"] ok_result;
         Log INFO "done";
         Log INFO "Updating local chart dependencies: hub23-chart";
         Chdir "hub23-chart" (Some "/srv/hub23-deploy/hub23-chart");
         Run ["helm"; "dependency"; "update"] ok_result;
         Log INFO "done";
         Chdir ".." (Some "/srv/hub23-deploy");
         Log INFO "Upgrading helm chart";
         Run ["helm"; "upgrade"; "hub23"; "hub23-chart";
              "-f"; "deploy/prod.yaml"; "-f"; ".secret/prod.yaml";
              "--wait"] ok_result;
         Log INFO "done";
         Log INFO "Fetching the Kubernetes pods";
         Run ["kubectl"; "get"; "pods"; "-n"; "hub23"] ok_result;
         Log INFO "done"] |}).
Proof. reflexivity. Qed.

(** The same with [--dry-run], the second subprocess failing. *)
Example failed_subscription_run :
  main (failing_env 1) dry_run_args srv =
  (inl (Exception "command failed"),
   {| bot := Upgrade_init dry_run_args;
      cwd := "/srv/hub23-deploy";
      trace :=
        [Log INFO "THIS IS A DRY-RUN. HELM CHART WILL NOT BE UPGRADED.";
         Log INFO "Logging into Azure";
         Run ["az"; "login"] ok_result;
         Log INFO "Successfully logged into Azure";
         Log INFO "Setting Azure subscription: Turing-BinderHub";
         Run ["az"; "account"; "set"; "-s"; "Turing-BinderHub"]
           failed_result;
         Log ERROR "command failed"] |}).
Proof. reflexivity. Qed.

(** The script started where there is no chart directory. *)
Example missing_chart_run :
  fst (main no_chart_env parse_args_defaults srv) =
    inl (OSError "hub23-chart") /\
  last (trace (snd (main no_chart_env parse_args_defaults srv)))
    (Log INFO EmptyString) = Chdir "hub23-chart" None.
Proof. split; reflexivity. Qed.

(** * Proofs *)

(** ** Lists and traces *)

Lemma skipn_length_app {A : Type} (l r : list A) :
  skipn (length l) (l ++ r) = r.
Proof. induction l as [|x l IH]; [reflexivity | exact IH]. Qed.

Lemma emitted_app p u d l :
  emitted p {| bot := u; cwd := d; trace := trace p ++ l |} = l.
Proof. unfold emitted. cbn [trace]. apply skipn_length_app. Qed.

Lemma runs_app tr1 tr2 : runs (tr1 ++ tr2) = runs tr1 ++ runs tr2.
Proof.
  induction tr1 as [|[l m|c r|q n] tr1 IH]; cbn [app runs];
    rewrite ?IH; reflexivity.
Qed.

Lemma chdirs_app tr1 tr2 : chdirs (tr1 ++ tr2) = chdirs tr1 ++ chdirs tr2.
Proof.
  induction tr1 as [|[l m|c r|q n] tr1 IH]; cbn [app chdirs];
    rewrite ?IH; reflexivity.
Qed.

Lemma commands_length tr : length (commands tr) = length (runs tr).
Proof. unfold commands. apply length_map. Qed.

Lemma nth_error_commands tr k c r :
  nth_error (runs tr) k = Some (c, r) -> nth_error (commands tr) k = Some c.
Proof.
  intros H. unfold commands. rewrite nth_error_map, H. reflexivity.
Qed.

(** The two value files of the upgrade command. *)
Lemma join_deploy : os_path_join "deploy" "prod.yaml" = "deploy/prod.yaml".
Proof. reflexivity. Qed.

Lemma join_secret : os_path_join ".secret" "prod.yaml" = ".secret/prod.yaml".
Proof. reflexivity. Qed.

(** [" " in s] holds when one of the characters of [s] is a space. *)
Lemma str_in_space s :
  str_in " " s = true <-> In " "%char (list_ascii_of_string s).
Proof.
  induction s as [|a s IH]; cbn [str_in String.prefix list_ascii_of_string In].
  - split; [discriminate | contradiction].
  - destruct (ascii_dec " " a) as [<-|Hne].
    + replace (String.prefix EmptyString s) with true
        by (destruct s; reflexivity).
      split; [left; reflexivity | reflexivity].
    + cbn [orb]. rewrite IH. split; [right; assumption|].
      intros [Heq|Hin]; [symmetry in Heq; contradiction | assumption].
Qed.

(** ** Running the methods by hand *)

Ltac tidy := cbv beta iota zeta; cbn [trace cwd bot fst snd app].

(** One answer of the environment: the return code of a subprocess, or the
    directory [os.chdir] leads to. *)
Ltac env_step :=
  first
    [ match goal with
      | |- context [returncode ?r =? 0] =>
          let x := fresh "r" in
          remember r as x;
          destruct (Z.eqb_spec (returncode x) 0); tidy
      end
    | match goal with
      | |- context [match chdir ?e ?t ?d ?q with _ => _ end] =>
          destruct (chdir e t d q) eqn:?; tidy
      end ].

(** One step of the script: an attribute that is tested, or an answer of
    the environment. *)
Ltac stp :=
  first
    [ match goal with
      | |- context [if ?b then _ else _] =>
          lazymatch b with
          | (_ =? _) => fail
          | _ => first [ match goal with H : b = _ |- _ => rewrite H end
                       | destruct b eqn:? ]; tidy
          end
      end
    | env_step ].

Ltac unfold_monad :=
  unfold bind, attr, ret, raise, logging_info, logging_error, emit,
    run_cmd, os_chdir.

Ltac same_trace := rewrite <- ?app_assoc; cbn [app]; reflexivity.

(** ** The methods are their scripts *)

Lemma login_replay env p :
  login env p = replay env (login_script (bot p)) p.
Proof.
  unfold login, replay, login_script. unfold_monad. cbn [play]. tidy.
  repeat stp; same_trace.
Qed.

Lemma update_replay env p :
  update_local_chart env p = replay env (update_script (bot p)) p.
Proof.
  unfold update_local_chart, replay, update_script. unfold_monad.
  cbn [play]. tidy.
  repeat stp; same_trace.
Qed.

Lemma print_pods_replay env p :
  print_pods env p = replay env (pods_script (bot p)) p.
Proof.
  unfold print_pods, replay, pods_script. unfold_monad. cbn [play]. tidy.
  repeat stp; same_trace.
Qed.

Lemma play_app env a : forall b tr d,
  play env (a ++ b) tr d =
  match play env a tr d with
  | (inl e, d1, ev) => (inl e, d1, ev)
  | (inr _, d1, ev) =>
      let '(res, d2, ev') := play env b (tr ++ ev) d1 in
      (res, d2, ev ++ ev')
  end.
Proof.
  induction a as [|[msg|cmd okmsg|path] a IH]; intros b tr d;
    cbn [app play].
  - rewrite app_nil_r.
    destruct (play env b tr d) as [[res d2] ev']. reflexivity.
  - rewrite IH.
    destruct (play env a _ d) as [[[e|[]] d1] ev]; [reflexivity|].
    rewrite <- app_assoc. cbn [app].
    destruct (play env b _ d1) as [[res d2] ev']. reflexivity.
  - cbv zeta. destruct (returncode _ =? 0); [|reflexivity].
    rewrite IH.
    destruct (play env a _ d) as [[[e|[]] d1] ev]; [reflexivity|].
    rewrite <- !app_assoc. cbn [app].
    destruct (play env b _ d1) as [[res d2] ev']. reflexivity.
  - destruct (chdir env tr d path) as [d0|]; [|reflexivity].
    rewrite IH.
    destruct (play env a _ d0) as [[[e|[]] d1] ev]; [reflexivity|].
    rewrite <- app_assoc. cbn [app].
    destruct (play env b _ d1) as [[res d2] ev']. reflexivity.
Qed.

Lemma replay_app env a b p :
  replay env (a ++ b) p = bind (replay env a) (fun _ => replay env b) p.
Proof.
  unfold bind, replay. rewrite play_app.
  destruct (play env a (trace p) (cwd p)) as [[[e|[]] d1] ev];
    [reflexivity|].
  tidy. destruct (play env b _ d1) as [[res d2] ev'].
  rewrite app_assoc. reflexivity.
Qed.

Lemma replay_bot env a p : bot (snd (replay env a p)) = bot p.
Proof.
  unfold replay.
  destruct (play env a (trace p) (cwd p)) as [[res d] ev]. reflexivity.
Qed.

Lemma replay_outcome env a p :
  fst (replay env a p) = fst (fst (play env a (trace p) (cwd p))).
Proof.
  unfold replay.
  destruct (play env a (trace p) (cwd p)) as [[res d] ev]. reflexivity.
Qed.

Lemma replay_cwd env a p :
  cwd (snd (replay env a p)) = snd (fst (play env a (trace p) (cwd p))).
Proof.
  unfold replay.
  destruct (play env a (trace p) (cwd p)) as [[res d] ev]. reflexivity.
Qed.

Lemma replay_emitted env a p :
  emitted p (snd (replay env a p)) = snd (play env a (trace p) (cwd p)).
Proof.
  unfold replay.
  destruct (play env a (trace p) (cwd p)) as [[res d] ev].
  apply emitted_app.
Qed.

(** A method that is a script, followed by code that is a script for every
    process with the same object, is the two scripts in a row. *)
Lemma bind_follows env (m k : M unit) a b p :
  m p = replay env a p ->
  (forall p', bot p' = bot p -> k p' = replay env b p') ->
  bind m (fun _ => k) p = replay env (a ++ b) p.
Proof.
  intros Hm Hk. rewrite replay_app. unfold bind. rewrite Hm.
  pose proof (replay_bot env a p) as Hb.
  destruct (replay env a p) as [[e|[]] p']; [reflexivity|].
  apply Hk, Hb.
Qed.

Lemma upgrade_replay env p : upgrade env p = replay env (script (bot p)) p.
Proof.
  unfold upgrade, script. unfold bind at 1, attr at 1.
  apply bind_follows.
  { destruct (dry_run (bot p)); [reflexivity|].
    unfold ret, replay; cbn [play].
    destruct p as [u d tr]; cbn [trace cwd bot].
    rewrite app_nil_r. reflexivity. }
  intros p1 H1. apply bind_follows.
  { rewrite login_replay, H1. reflexivity. }
  intros p2 H2. rewrite H1 in H2. apply bind_follows.
  { rewrite update_replay, H2. reflexivity. }
  intros p3 H3. rewrite H2 in H3.
  rewrite replay_app. unfold replay at 1.
  unfold upgrade_script, upgrade_message, upgrade_flags.
  rewrite join_deploy, join_secret.
  unfold_monad. cbn [play]. tidy. rewrite H3.
  destruct (dry_run (bot p)), (debug (bot p)); cbn [andb negb]; tidy.
  all: repeat stp; rewrite ?print_pods_replay; cbn [bot]; rewrite ?H3.
  all: rewrite <- ?app_assoc; reflexivity.
Qed.

Lemma script_commands_app a b :
  script_commands (a ++ b) = script_commands a ++ script_commands b.
Proof.
  induction a as [|[msg|cmd okmsg|path] a IH]; cbn [app script_commands];
    rewrite ?IH; reflexivity.
Qed.

Lemma script_commands_script u :
  script_commands (script u) = upgrade_commands u.
Proof.
  unfold script, upgrade_commands. rewrite script_commands_app.
  replace (script_commands (if dry_run u then [ALog _] else []))
    with (@nil (list string)) by (destruct (dry_run u); reflexivity).
  cbn [app script_commands login_script update_script upgrade_script
       pods_script].
  unfold upgrade_flags. destruct (dry_run u), (debug u); reflexivity.
Qed.

Lemma skeleton_app a b : skeleton (a ++ b) = skeleton a ++ skeleton b.
Proof.
  induction a as [|[msg|cmd okmsg|path] a IH]; cbn [app skeleton];
    rewrite ?IH; reflexivity.
Qed.

(** The skeleton of [upgrade] is the same for every object up to the name
    of the chart directory. *)
Lemma skeleton_script u :
  skeleton (script u) =
  [SRun; SRun; SRun; SRun; SChdir (chart_name u); SRun; SChdir os_pardir;
   SRun; SRun].
Proof.
  unfold script. rewrite skeleton_app.
  replace (skeleton (if dry_run u then [ALog _] else []))
    with (@nil step) by (destruct (dry_run u); reflexivity).
  reflexivity.
Qed.

(** ** What holds of every script *)

Section Play.

Variable env : Env.

(** The induction on the script has the same four cases in every proof
    below; [next_play] names the recursive call the goal is waiting for. *)
Ltac next_play IH :=
  match goal with
  | |- context [play env ?a ?tr ?d] =>
      specialize (IH tr d);
      destruct (play env a tr d) as [[?res ?d'] ?ev];
      cbn [fst snd] in *
  end.

Lemma play_commands acts : forall tr d k c,
  nth_error (commands (snd (play env acts tr d))) k = Some c ->
  nth_error (script_commands acts) k = Some c.
Proof.
  induction acts as [|[msg|cmd okmsg|path] acts IH]; intros tr d k c;
    cbn [play script_commands].
  - destruct k; discriminate.
  - next_play IH. apply IH.
  - cbv zeta. destruct (returncode _ =? 0).
    + next_play IH.
      destruct k as [|k]; [intro H; exact H | apply IH].
    + destruct k as [|[|k]]; intro H; try exact H; discriminate.
  - destruct (chdir env tr d path) as [d1|].
    + next_play IH. apply IH.
    + destruct k; discriminate.
Qed.

Lemma play_commands_exact acts : forall tr d,
  commands (snd (play env acts tr d)) =
  firstn (length (runs (snd (play env acts tr d)))) (script_commands acts).
Proof.
  induction acts as [|[msg|cmd okmsg|path] acts IH]; intros tr d;
    cbn [play script_commands].
  - reflexivity.
  - next_play IH. exact IH.
  - cbv zeta. destruct (returncode _ =? 0); [|reflexivity].
    next_play IH.
    cbn [runs commands map fst length firstn]. unfold commands in IH.
    rewrite IH. reflexivity.
  - destruct (chdir env tr d path) as [d1|]; [|reflexivity].
    next_play IH. exact IH.
Qed.

(** A subprocess with a non-zero return code ends the script with its
    error text, and is the last one. *)
Lemma play_failure acts : forall tr d k c r,
  nth_error (runs (snd (play env acts tr d))) k = Some (c, r) ->
  returncode r <> 0 ->
  fst (fst (play env acts tr d)) = inl (Exception (err_msg r)) /\
  length (runs (snd (play env acts tr d))) = S k.
Proof.
  induction acts as [|[msg|cmd okmsg|path] acts IH]; intros tr d k c r;
    cbn [play].
  - destruct k; discriminate.
  - next_play IH. apply IH.
  - cbv zeta.
    destruct (Z.eqb_spec (returncode (exec env tr d cmd)) 0) as [Hz|Hnz].
    + next_play IH. cbn [runs length nth_error].
      destruct k as [|k]; cbn [nth_error].
      * intros [= <- <-] Hr. contradiction.
      * intros Hk Hr. destruct (IH k c r Hk Hr) as [-> ->].
        split; reflexivity.
    + cbn [snd fst runs length].
      destruct k as [|[|k]]; cbn [nth_error]; try discriminate.
      intros [= <- <-] _. split; reflexivity.
  - destruct (chdir env tr d path) as [d1|].
    + next_play IH. apply IH.
    + destruct k; discriminate.
Qed.

(** [Exception] comes from the last subprocess, which returned a non-zero
    code. *)
Lemma play_exception acts : forall tr d m,
  fst (fst (play env acts tr d)) = inl (Exception m) ->
  exists c r,
    nth_error (runs (snd (play env acts tr d)))
      (length (runs (snd (play env acts tr d))) - 1) = Some (c, r) /\
    returncode r <> 0 /\ err_msg r = m.
Proof.
  induction acts as [|[msg|cmd okmsg|path] acts IH]; intros tr d m;
    cbn [play].
  - discriminate.
  - next_play IH. apply IH.
  - cbv zeta.
    destruct (Z.eqb_spec (returncode (exec env tr d cmd)) 0) as [Hz|Hnz].
    + next_play IH. cbn [runs length]. intros H.
      destruct (IH m H) as (c & r & Hn & Hr & Hm). exists c, r.
      split; [|split; assumption].
      destruct (runs ev) as [|x l]; [destruct (0 - 1)%nat; discriminate|].
      cbn [length] in *.
      replace (S (S (length l)) - 1)%nat with (S (S (length l) - 1))
        by lia.
      exact Hn.
    + cbn [snd fst runs length]. intros [= <-].
      exists cmd, (exec env tr d cmd). repeat split; assumption.
  - destruct (chdir env tr d path) as [d1|].
    + next_play IH. apply IH.
    + discriminate.
Qed.

(** When every subprocess returns zero and no [os.chdir] raises, the whole
    script is played. *)
Lemma play_success acts : forall tr d,
  commands_succeeded (snd (play env acts tr d)) ->
  chdirs_succeeded (snd (play env acts tr d)) ->
  fst (fst (play env acts tr d)) = inr tt /\
  commands (snd (play env acts tr d)) = script_commands acts.
Proof.
  unfold commands_succeeded, chdirs_succeeded.
  induction acts as [|[msg|cmd okmsg|path] acts IH]; intros tr d;
    cbn [play script_commands].
  - split; reflexivity.
  - next_play IH. exact IH.
  - cbv zeta.
    destruct (Z.eqb_spec (returncode (exec env tr d cmd)) 0) as [Hz|Hnz].
    + next_play IH. cbn [runs chdirs commands map fst]. intros Hr Hc.
      destruct IH as [-> IH].
      * intros c r Hin. apply (Hr c r). right. exact Hin.
      * exact Hc.
      * unfold commands in IH. rewrite IH. split; reflexivity.
    + cbn [snd fst runs]. intros Hr _. exfalso. apply Hnz.
      apply (Hr cmd). left. reflexivity.
  - destruct (chdir env tr d path) as [d1|].
    + next_play IH. cbn [runs chdirs]. intros Hr Hc.
      apply IH; [exact Hr|].
      intros q Hq. apply (Hc q). right. exact Hq.
    + cbn [snd chdirs]. intros _ Hc. exfalso.
      apply (Hc path). left. reflexivity.
Qed.

(** A subprocess that returned zero is followed by the record of the
    success branch of its check. *)
Lemma play_zero_next acts : forall tr d pre c r post,
  snd (play env acts tr d) = pre ++ Run c r :: post ->
  returncode r = 0 ->
  exists msg post', post = Log INFO msg :: post'.
Proof.
  induction acts as [|[msg|cmd okmsg|path] acts IH];
    intros tr d pre c r post; cbn [play].
  - destruct pre; discriminate.
  - next_play IH.
    destruct pre as [|e pre]; [discriminate|].
    intros [= _ H]. exact (IH pre c r post H).
  - cbv zeta.
    destruct (Z.eqb_spec (returncode (exec env tr d cmd)) 0) as [Hz|Hnz].
    + next_play IH.
      destruct pre as [|e [|e' pre]].
      * intros [= _ _ <-] _. eexists. eexists. reflexivity.
      * discriminate.
      * intros [= _ _ H]. exact (IH pre c r post H).
    + cbn [snd]. destruct pre as [|e [|e' [|e'' pre]]]; try discriminate.
      intros [= _ <- _] Hz. contradiction.
  - destruct (chdir env tr d path) as [d1|].
    + next_play IH.
      destruct pre as [|e pre]; [discriminate|].
      intros [= _ H]. exact (IH pre c r post H).
    + cbn [snd]. destruct pre as [|e [|e' pre]]; discriminate.
Qed.

End Play.

(** Under a scripted environment the outcome of a script depends on its
    skeleton only. *)
Lemma play_scripted rs ds acts : forall tr d,
  play_skel rs ds (skeleton acts) (length (runs tr)) (length (chdirs tr)) d =
  (fst (fst (play (scripted rs ds) acts tr d)),
   snd (fst (play (scripted rs ds) acts tr d)),
   map snd (runs (snd (play (scripted rs ds) acts tr d))),
   chdirs (snd (play (scripted rs ds) acts tr d))).
Proof.
  induction acts as [|[msg|cmd okmsg|path] acts IH]; intros tr d;
    cbn [play skeleton play_skel].
  - reflexivity.
  - specialize (IH (tr ++ [Log INFO msg]) d).
    rewrite runs_app, chdirs_app, !length_app in IH.
    cbn [runs chdirs length] in IH. rewrite !Nat.add_0_r in IH.
    destruct (play (scripted rs ds) acts _ d) as [[res d'] ev]. exact IH.
  - cbv zeta. cbn [exec scripted].
    destruct (returncode _ =? 0); [|reflexivity].
    specialize
      (IH ((tr ++ [Run cmd (rs (length (runs tr)))]) ++
           [Log INFO (okmsg (rs (length (runs tr))))]) d).
    rewrite !runs_app, !chdirs_app, !length_app in IH.
    cbn [runs chdirs length] in IH.
    rewrite !Nat.add_0_r, Nat.add_1_r in IH. rewrite IH.
    destruct (play (scripted rs ds) acts _ d) as [[res d'] ev].
    reflexivity.
  - cbn [chdir scripted].
    destruct (ds (length (chdirs tr))) as [d1|]; [|reflexivity].
    specialize (IH (tr ++ [Chdir path (Some d1)]) d1).
    rewrite !runs_app, !chdirs_app, !length_app in IH.
    cbn [runs chdirs length] in IH.
    rewrite !Nat.add_0_r, Nat.add_1_r in IH. rewrite IH.
    destruct (play (scripted rs ds) acts _ d1) as [[res d'] ev].
    reflexivity.
Qed.

(** ** From the scripts back to the methods *)

Lemma upgrade_outcome env p :
  fst (upgrade env p) =
  fst (fst (play env (script (bot p)) (trace p) (cwd p))).
Proof. rewrite upgrade_replay. apply replay_outcome. Qed.

Lemma upgrade_cwd env p :
  cwd (snd (upgrade env p)) =
  snd (fst (play env (script (bot p)) (trace p) (cwd p))).
Proof. rewrite upgrade_replay. apply replay_cwd. Qed.

Lemma upgrade_emitted env p :
  emitted p (snd (upgrade env p)) =
  snd (play env (script (bot p)) (trace p) (cwd p)).
Proof. rewrite upgrade_replay. apply replay_emitted. Qed.

(** The commands of a run are the first of the seven, as many as were
    run. *)
Lemma upgrade_commands_firstn env p :
  commands (emitted p (snd (upgrade env p))) =
  firstn (length (runs (emitted p (snd (upgrade env p)))))
    (upgrade_commands (bot p)).
Proof.
  rewrite upgrade_emitted, play_commands_exact, script_commands_script.
  reflexivity.
Qed.

Lemma upgrade_commands_nth env p k c :
  nth_error (commands (emitted p (snd (upgrade env p)))) k = Some c ->
  nth_error (upgrade_commands (bot p)) k = Some c.
Proof.
  rewrite upgrade_emitted. intros H. apply play_commands in H.
  rewrite script_commands_script in H. exact H.
Qed.

Lemma upgrade_success env p :
  commands_succeeded (emitted p (snd (upgrade env p))) ->
  chdirs_succeeded (emitted p (snd (upgrade env p))) ->
  fst (upgrade env p) = inr tt /\
  commands (emitted p (snd (upgrade env p))) = upgrade_commands (bot p).
Proof.
  rewrite upgrade_emitted, upgrade_outcome, <- script_commands_script.
  apply play_success.
Qed.

(** Under a scripted environment two objects with the same chart directory
    are stopped at the same place, or not at all. *)
Lemma upgrade_scripted rs ds p u u' :
  chart_name u = chart_name u' ->
  let run := upgrade (scripted rs ds) (with_bot u p) in
  let run' := upgrade (scripted rs ds) (with_bot u' p) in
  fst run = fst run' /\
  cwd (snd run) = cwd (snd run') /\
  map snd (runs (emitted p (snd run))) =
    map snd (runs (emitted p (snd run'))) /\
  chdirs (emitted p (snd run)) = chdirs (emitted p (snd run')).
Proof.
  intros Hc run run'. subst run run'.
  change (emitted p (snd (upgrade (scripted rs ds) (with_bot u p))))
    with (emitted (with_bot u p)
            (snd (upgrade (scripted rs ds) (with_bot u p)))).
  change (emitted p (snd (upgrade (scripted rs ds) (with_bot u' p))))
    with (emitted (with_bot u' p)
            (snd (upgrade (scripted rs ds) (with_bot u' p)))).
  rewrite !upgrade_outcome, !upgrade_cwd, !upgrade_emitted.
  cbn [with_bot bot trace cwd].
  pose proof (play_scripted rs ds (script u) (trace p) (cwd p)) as H.
  pose proof (play_scripted rs ds (script u') (trace p) (cwd p)) as H'.
  rewrite skeleton_script in H, H'. rewrite Hc, H' in H.
  injection H as H1 H2 H3 H4. repeat split; congruence.
Qed.

(** ** Playing a script one action at a time *)

Lemma play_log env msg acts tr d :
  play env (ALog msg :: acts) tr d =
  push (Log INFO msg) (play env acts (tr ++ [Log INFO msg]) d).
Proof.
  cbn [play]. destruct (play env acts _ d) as [[res d'] ev]. reflexivity.
Qed.

Lemma play_run_ok env cmd okmsg acts tr d r :
  r = exec env tr d cmd ->
  returncode r = 0 ->
  play env (ARun cmd okmsg :: acts) tr d =
  push (Run cmd r)
    (push (Log INFO (okmsg r))
       (play env acts ((tr ++ [Run cmd r]) ++ [Log INFO (okmsg r)]) d)).
Proof.
  intros -> Hz. cbn [play]. cbv zeta.
  apply Z.eqb_eq in Hz. rewrite Hz.
  destruct (play env acts _ d) as [[res d'] ev]. reflexivity.
Qed.

Lemma play_run_failed env cmd okmsg acts tr d r :
  r = exec env tr d cmd ->
  returncode r <> 0 ->
  play env (ARun cmd okmsg :: acts) tr d =
  (inl (Exception (err_msg r)), d, [Run cmd r; Log ERROR (err_msg r)]).
Proof.
  intros -> Hnz. cbn [play]. cbv zeta.
  apply Z.eqb_neq in Hnz. rewrite Hnz. reflexivity.
Qed.

Lemma play_chdir_ok env path acts tr d d1 :
  chdir env tr d path = Some d1 ->
  play env (AChdir path :: acts) tr d =
  push (Chdir path (Some d1))
    (play env acts (tr ++ [Chdir path (Some d1)]) d1).
Proof.
  intros H. cbn [play]. rewrite H.
  destruct (play env acts _ d1) as [[res d'] ev]. reflexivity.
Qed.

Lemma play_chdir_failed env path acts tr d :
  chdir env tr d path = None ->
  play env (AChdir path :: acts) tr d =
  (inl (OSError path), d, [Chdir path None]).
Proof. intros H. cbn [play]. rewrite H. reflexivity. Qed.

(** Plays the first action of the script in the goal, on every answer the
    environment may give. *)
Ltac play_step :=
  match goal with
  | |- context [play ?e (ALog ?m :: ?a) ?tr ?d] =>
      rewrite (play_log e m a tr d)
  | |- context [play ?e (ARun ?c ?ok :: ?a) ?tr ?d] =>
      let r := fresh "r" in
      let Er := fresh "E" r in
      let Hr := fresh "H" r in
      remember (exec e tr d c) as r eqn:Er;
      destruct (Z.eq_dec (returncode r) 0) as [Hr|Hr];
      [ rewrite (play_run_ok e c ok a tr d r Er Hr)
      | rewrite (play_run_failed e c ok a tr d r Er Hr) ];
      clear Er
  | |- context [play ?e (AChdir ?q :: ?a) ?tr ?d] =>
      let d1 := fresh "d" in
      let Ed := fresh "E" d1 in
      destruct (chdir e tr d q) as [d1|] eqn:Ed;
      [ rewrite (play_chdir_ok e q a tr d d1 Ed)
      | rewrite (play_chdir_failed e q a tr d Ed) ];
      clear Ed
  end;
  cbn [push fst snd].

(** Decide [commands_succeeded] and [chdirs_succeeded] on the trace of a
    concrete run. *)
Ltac all_zero :=
  let H := fresh "H" in
  unfold commands_succeeded; vm_compute; intros ? ? H;
  repeat (destruct H as [H|H]; [injection H as _ <-; reflexivity|]);
  contradiction.

Ltac no_failed_chdir :=
  let H := fresh "H" in
  unfold chdirs_succeeded; vm_compute; intros ? H;
  repeat (destruct H as [H|H]; [discriminate H|]);
  contradiction.


(** ** How a script goes on when nothing fails *)

(** Unless an [os.chdir] raises before it, the first command of a script is
    run. *)
Lemma play_first_command env acts : forall tr d,
  script_commands acts <> [] ->
  chdirs_succeeded (snd (play env acts tr d)) ->
  runs (snd (play env acts tr d)) <> [].
Proof.
  unfold chdirs_succeeded.
  induction acts as [|[msg|cmd okmsg|path] acts IH]; intros tr d;
    cbn [play script_commands].
  - intros H. contradiction.
  - specialize (IH (tr ++ [Log INFO msg]) d).
    destruct (play env acts _ d) as [[res d'] ev]. exact IH.
  - cbv zeta. intros _ _. destruct (returncode _ =? 0).
    + destruct (play env acts _ d) as [[res d'] ev]. discriminate.
    + discriminate.
  - destruct (chdir env tr d path) as [d1|].
    + specialize (IH (tr ++ [Chdir path (Some d1)]) d1).
      destruct (play env acts _ d1) as [[res d'] ev].
      cbn [snd runs chdirs] in *. intros Hsc Hc. apply IH; [exact Hsc|].
      intros q Hq. apply (Hc q). right. exact Hq.
    + cbn [snd chdirs]. intros _ Hc. exfalso.
      apply (Hc path). left. reflexivity.
Qed.

(** A script with no command left returns normally unless an [os.chdir]
    raises. *)
Lemma play_no_command_left env acts : forall tr d,
  script_commands acts = [] ->
  chdirs_succeeded (snd (play env acts tr d)) ->
  fst (fst (play env acts tr d)) = inr tt.
Proof.
  intros tr d Hsc Hc.
  assert (Hruns : runs (snd (play env acts tr d)) = []).
  { pose proof (play_commands_exact env acts tr d) as H.
    rewrite Hsc in H. unfold commands in H.
    destruct (runs (snd (play env acts tr d)));
      [reflexivity | destruct (length _); discriminate H]. }
  apply play_success; [|exact Hc].
  intros c r Hin. rewrite Hruns in Hin. contradiction.
Qed.

(** After a command that returned zero, and unless an [os.chdir] raises,
    the next command of the script is run, and the script returns normally
    when there is none. *)
Lemma play_goes_on env acts : forall tr d k c r,
  nth_error (runs (snd (play env acts tr d))) k = Some (c, r) ->
  returncode r = 0 ->
  chdirs_succeeded (snd (play env acts tr d)) ->
  ((S k < length (script_commands acts))%nat ->
   (S k < length (runs (snd (play env acts tr d))))%nat) /\
  (S k = length (script_commands acts) ->
   fst (fst (play env acts tr d)) = inr tt).
Proof.
  induction acts as [|[msg|cmd okmsg|path] acts IH]; intros tr d k c r;
    cbn [play script_commands].
  - destruct k; discriminate.
  - specialize (IH (tr ++ [Log INFO msg]) d k c r).
    destruct (play env acts _ d) as [[res d'] ev]. exact IH.
  - cbv zeta.
    destruct (Z.eqb_spec (returncode (exec env tr d cmd)) 0) as [Hz|Hnz].
    + pose proof (play_first_command env acts
                    ((tr ++ [Run cmd (exec env tr d cmd)]) ++
                     [Log INFO (okmsg (exec env tr d cmd))]) d) as Hfirst.
      pose proof (play_no_command_left env acts
                    ((tr ++ [Run cmd (exec env tr d cmd)]) ++
                     [Log INFO (okmsg (exec env tr d cmd))]) d) as Hnone.
      specialize (IH ((tr ++ [Run cmd (exec env tr d cmd)]) ++
                      [Log INFO (okmsg (exec env tr d cmd))]) d).
      destruct (play env acts _ d) as [[res d'] ev].
      unfold chdirs_succeeded in *.
      cbn [fst snd runs chdirs length nth_error] in *.
      destruct k as [|k]; cbn [nth_error].
      * intros _ _ Hc. split.
        -- intros Hlt.
           assert (Hne : runs ev <> []).
           { apply Hfirst; [|exact Hc].
             destruct (script_commands acts);
               [cbn [length] in Hlt; lia | discriminate]. }
           destruct (runs ev); [contradiction | cbn [length]; lia].
        -- intros Heq. apply Hnone; [|exact Hc].
           destruct (script_commands acts);
             [reflexivity | discriminate Heq].
      * intros Hk Hr Hc. destruct (IH k c r Hk Hr Hc) as [IH1 IH2].
        split; [intros Hlt; apply -> Nat.succ_lt_mono; apply IH1; lia
               | intros Heq; apply IH2; lia].
    + cbn [snd runs]. destruct k as [|[|k]]; cbn [nth_error];
        try discriminate.
      intros [= _ <-] Hr. contradiction.
  - destruct (chdir env tr d path) as [d1|].
    + specialize (IH (tr ++ [Chdir path (Some d1)]) d1 k c r).
      destruct (play env acts _ d1) as [[res d'] ev].
      unfold chdirs_succeeded in *. cbn [fst snd runs chdirs] in *.
      intros Hk Hr Hc. apply IH; [exact Hk | exact Hr |].
      intros q Hq. apply (Hc q). right. exact Hq.
    + destruct k; discriminate.
Qed.

(** * Properties of the script *)

(** ** Failure of a step *)

(** C1, as the script has it.  Every subprocess of a run of [upgrade] is one
    of its seven steps.  When it returns a non-zero code, the run raises
    [Exception] with the error text of that subprocess, and no subprocess
    follows.  When it returns zero, its check raises nothing: what follows
    the subprocess in the trace is the record the check logs at level INFO,
    and either another subprocess follows or the run does not end in
    [Exception].  Unless an [os.chdir] raises, the step raises nothing at
    all: the command of the next step is run, and after the seventh the run
    returns normally. *)
Theorem nonzero_returncode_aborts_run env p k cmd r :
  nth_error (runs (emitted p (snd (upgrade env p)))) k = Some (cmd, r) ->
  (k < 7)%nat /\
  (returncode r <> 0 ->
     fst (upgrade env p) = inl (Exception (err_msg r)) /\
     length (runs (emitted p (snd (upgrade env p)))) = S k) /\
  (returncode r = 0 ->
     ((S k < length (runs (emitted p (snd (upgrade env p)))))%nat \/
      forall msg, fst (upgrade env p) <> inl (Exception msg)) /\
     (forall pre post,
        emitted p (snd (upgrade env p)) = pre ++ Run cmd r :: post ->
        exists msg post', post = Log INFO msg :: post') /\
     (chdirs_succeeded (emitted p (snd (upgrade env p))) ->
      ((k < 6)%nat ->
       (S k < length (runs (emitted p (snd (upgrade env p)))))%nat) /\
      (k = 6%nat -> fst (upgrade env p) = inr tt))).
Proof.
  intros H. split; [|split]; [| |intros Hz; split; [|split]].
  - apply nth_error_commands, upgrade_commands_nth in H.
    assert (Hk : nth_error (upgrade_commands (bot p)) k <> None)
      by (rewrite H; discriminate).
    apply nth_error_Some in Hk. exact Hk.
  - revert H. rewrite upgrade_emitted, upgrade_outcome. apply play_failure.
  - revert H. rewrite upgrade_emitted, upgrade_outcome. intros H.
    destruct (fst (fst (play env (script (bot p)) (trace p) (cwd p))))
      as [[msg|path]|[]] eqn:E.
    + left. destruct (play_exception _ _ _ _ _ E) as (c' & r' & Hn & Hr & _).
      assert (Hk : (k < length (runs (snd (play env (script (bot p))
                                             (trace p) (cwd p)))))%nat)
        by (apply nth_error_Some; rewrite H; discriminate).
      assert (Hne : k <> (length (runs (snd (play env (script (bot p))
                                              (trace p) (cwd p)))) - 1)%nat).
      { intros ->. rewrite H in Hn. injection Hn as _ <-. contradiction. }
      lia.
    + right. intros msg. discriminate.
    + right. intros msg. discriminate.
  - rewrite upgrade_emitted. intros pre post Hsplit.
    exact (play_zero_next env _ _ _ _ _ _ _ Hsplit Hz).
  - revert H. rewrite upgrade_emitted, upgrade_outcome. intros H Hc.
    destruct (play_goes_on env _ _ _ _ _ _ H Hz Hc) as [Hnext Hlast].
    rewrite script_commands_script in Hnext, Hlast.
    cbn [upgrade_commands length] in Hnext, Hlast.
    split; [intros Hk; apply Hnext; lia | intros ->; apply Hlast; reflexivity].
Qed.

Lemma nonzero_returncode_aborts_run_witness :
  nth_error
    (runs (emitted default_process
             (snd (upgrade (failing_env 2) default_process)))) 2 =
    Some (["az"; "aks"; "get-credentials";
           "-n"; "hub23cluster"; "-g"; "Hub23"], failed_result) /\
  returncode failed_result <> 0 /\
  fst (upgrade (failing_env 2) default_process) =
    inl (Exception "command failed") /\
  length
    (runs (emitted default_process
             (snd (upgrade (failing_env 2) default_process)))) = 3%nat /\
  nth_error
    (runs (emitted default_process
             (snd (upgrade (failing_env 2) default_process)))) 0 =
    Some (["az"; "login"], ok_result) /\
  returncode ok_result = 0 /\
  chdirs_succeeded
    (emitted default_process
       (snd (upgrade (failing_env 2) default_process))) /\
  (1 < length
         (runs (emitted default_process
                  (snd (upgrade (failing_env 2) default_process)))))%nat.
Proof.
  assert (H : nth_error
                (runs (emitted default_process
                         (snd (upgrade (failing_env 2) default_process))))
                2
              = Some (["az"; "aks"; "get-credentials";
                       "-n"; "hub23cluster"; "-g"; "Hub23"], failed_result))
    by (vm_compute; reflexivity).
  assert (Hnz : returncode failed_result <> 0)
    by (vm_compute; discriminate).
  assert (H0 : nth_error
                 (runs (emitted default_process
                          (snd (upgrade (failing_env 2) default_process))))
                 0
               = Some (["az"; "login"], ok_result))
    by (vm_compute; reflexivity).
  assert (Hz : returncode ok_result = 0) by reflexivity.
  assert (Hc : chdirs_succeeded
                 (emitted default_process
                    (snd (upgrade (failing_env 2) default_process))))
    by no_failed_chdir.
  split; [exact H|]. split; [exact Hnz|].
  destruct (nonzero_returncode_aborts_run (failing_env 2) default_process
              2 _ _ H) as (_ & Hfail & _).
  destruct (Hfail Hnz) as [Hexn Hlen].
  split; [exact Hexn|]. split; [exact Hlen|].
  split; [exact H0|]. split; [exact Hz|]. split; [exact Hc|].
  destruct (nonzero_returncode_aborts_run (failing_env 2) default_process
              0 _ _ H0) as (_ & _ & Hok).
  destruct (Hok Hz) as (_ & _ & Hgo).
  apply (proj1 (Hgo Hc)). lia.
Defined.

(** C1, as it is stated, fails.  With the default options in a checkout
    where [os.chdir(os.pardir)] raises, the dependency update is the fifth
    command and returns zero; it is the last command of the run, and the
    run does not return: [update_local_chart] raises [OSError] right after
    it. *)
Lemma zero_returncode_before_failed_chdir :
  ~ (forall env p k cmd r,
       nth_error (runs (emitted p (snd (upgrade env p)))) k =
         Some (cmd, r) ->
       returncode r = 0 ->
       (S k < length (runs (emitted p (snd (upgrade env p)))))%nat \/
       fst (upgrade env p) = inr tt).
Proof.
  intros H.
  assert (H4 : nth_error
                 (runs (emitted default_process
                          (snd (upgrade no_parent_env default_process)))) 4
               = Some (["helm"; "dependency"; "update"], ok_result))
    by (vm_compute; reflexivity).
  destruct (H no_parent_env default_process 4%nat _ _ H4 eq_refl) as [Hlt|Hret].
  - vm_compute in Hlt. lia.
  - vm_compute in Hret. discriminate Hret.
Qed.

(** ** The upgrade command *)

(** C2.  The sixth command of a run, the helm upgrade, is the nine fixed
    arguments followed by the flags the two booleans select: both flags,
    [--dry-run] alone, [--debug] alone or nothing, one case for each of the
    four values of the pair.  A run that nothing stops does run it. *)
Theorem helm_upgrade_flags env p :
  (forall c,
     nth_error (commands (emitted p (snd (upgrade env p)))) 5 = Some c ->
     c = ["helm"; "upgrade"; hub_name (bot p); chart_name (bot p);
          "-f"; "deploy/prod.yaml"; "-f"; ".secret/prod.yaml"; "--wait"] ++
         match dry_run (bot p), debug (bot p) with
         | true, true => ["--dry-run"; "--debug"]
         | true, false => ["--dry-run"]
         | false, true => ["--debug"]
         | false, false => []
         end) /\
  (commands_succeeded (emitted p (snd (upgrade env p))) ->
   chdirs_succeeded (emitted p (snd (upgrade env p))) ->
   exists c,
     nth_error (commands (emitted p (snd (upgrade env p)))) 5 = Some c).
Proof.
  split.
  - intros c H. apply upgrade_commands_nth in H.
    cbn [upgrade_commands nth_error] in H. injection H as <-.
    destruct (dry_run (bot p)), (debug (bot p)); reflexivity.
  - intros Hr Hc. destruct (upgrade_success env p Hr Hc) as [_ ->].
    eexists. reflexivity.
Qed.

Lemma helm_upgrade_flags_witness :
  nth_error
    (commands (emitted spaced_process (snd (upgrade ok_env spaced_process))))
    5 =
    Some ["helm"; "upgrade"; "hub23"; "hub23-chart";
          "-f"; "deploy/prod.yaml"; "-f"; ".secret/prod.yaml"; "--wait";
          "--debug"].
Proof.
  destruct (helm_upgrade_flags ok_env spaced_process) as [Hflags _].
  assert (H : exists c,
             nth_error
               (commands (emitted spaced_process
                            (snd (upgrade ok_env spaced_process)))) 5
             = Some c) by (vm_compute; eexists; reflexivity).
  destruct H as [c H]. rewrite H. f_equal. exact (Hflags c H).
Defined.

(** C3.  With hub name [hub23], chart name [hub23-chart], [dry_run] set and
    [debug] not set, the sixth command of a run is
    [helm upgrade hub23 hub23-chart -f deploy/prod.yaml -f .secret/prod.yaml
    --wait --dry-run], and a run that nothing stops does run it. *)
Theorem dry_run_scenario_command env p :
  hub_name (bot p) = "hub23" ->
  chart_name (bot p) = "hub23-chart" ->
  dry_run (bot p) = true ->
  debug (bot p) = false ->
  (forall c,
     nth_error (commands (emitted p (snd (upgrade env p)))) 5 = Some c ->
     c = ["helm"; "upgrade"; "hub23"; "hub23-chart";
          "-f"; "deploy/prod.yaml"; "-f"; ".secret/prod.yaml"; "--wait";
          "--dry-run"]) /\
  (commands_succeeded (emitted p (snd (upgrade env p))) ->
   chdirs_succeeded (emitted p (snd (upgrade env p))) ->
   nth_error (commands (emitted p (snd (upgrade env p)))) 5 =
     Some ["helm"; "upgrade"; "hub23"; "hub23-chart";
           "-f"; "deploy/prod.yaml"; "-f"; ".secret/prod.yaml"; "--wait";
           "--dry-run"]).
Proof.
  intros Hhub Hchart Hdry Hdebug. split.
  - intros c H. apply upgrade_commands_nth in H.
    cbn [upgrade_commands nth_error] in H.
    rewrite Hhub, Hchart, Hdry, Hdebug in H. injection H as <-. reflexivity.
  - intros Hr Hc. destruct (upgrade_success env p Hr Hc) as [_ ->].
    cbn [upgrade_commands nth_error].
    rewrite Hhub, Hchart, Hdry, Hdebug. reflexivity.
Qed.

Lemma dry_run_scenario_command_witness :
  commands_succeeded
    (emitted dry_run_process (snd (upgrade ok_env dry_run_process))) /\
  chdirs_succeeded
    (emitted dry_run_process (snd (upgrade ok_env dry_run_process))) /\
  nth_error
    (commands
       (emitted dry_run_process (snd (upgrade ok_env dry_run_process)))) 5 =
    Some ["helm"; "upgrade"; "hub23"; "hub23-chart";
          "-f"; "deploy/prod.yaml"; "-f"; ".secret/prod.yaml"; "--wait";
          "--dry-run"].
Proof.
  assert (Hr : commands_succeeded
                 (emitted dry_run_process
                    (snd (upgrade ok_env dry_run_process))))
    by all_zero.
  assert (Hc : chdirs_succeeded
                 (emitted dry_run_process
                    (snd (upgrade ok_env dry_run_process))))
    by no_failed_chdir.
  split; [exact Hr|]. split; [exact Hc|].
  apply (dry_run_scenario_command ok_env dry_run_process);
    try reflexivity; assumption.
Defined.

(** ** The order of the steps *)

(** C4, as the script has it.  A run in which every subprocess returns zero
    and no [os.chdir] raises returns normally, and its subprocesses are the
    seven command lines in program order, each once: login, set
    subscription, get credentials, helm init, dependency update, helm
    upgrade, pod listing. *)
Theorem successful_run_order env p :
  commands_succeeded (emitted p (snd (upgrade env p))) ->
  chdirs_succeeded (emitted p (snd (upgrade env p))) ->
  fst (upgrade env p) = inr tt /\
  commands (emitted p (snd (upgrade env p))) =
    [ ["az"; "login"] ++ (if identity (bot p) then ["--identity"] else []);
      ["az"; "account"; "set"; "-s";
       if str_in " " (subscription (bot p))
       then (dquote ++ subscription (bot p) ++ dquote)%string
       else subscription (bot p)];
      ["az"; "aks"; "get-credentials";
       "-n"; cluster_name (bot p); "-g"; resource_group (bot p)];
      ["helm"; "init"; "--client-only"];
      ["helm"; "dependency"; "update"];
      ["helm"; "upgrade"; hub_name (bot p); chart_name (bot p);
       "-f"; "deploy/prod.yaml"; "-f"; ".secret/prod.yaml"; "--wait"]
      ++ (if dry_run (bot p) then ["--dry-run"] else [])
      ++ (if debug (bot p) then ["--debug"] else []);
      ["kubectl"; "get"; "pods"; "-n"; hub_name (bot p)] ].
Proof. apply upgrade_success. Qed.

Lemma successful_run_order_witness :
  commands_succeeded
    (emitted default_process (snd (upgrade ok_env default_process))) /\
  chdirs_succeeded
    (emitted default_process (snd (upgrade ok_env default_process))) /\
  fst (upgrade ok_env default_process) = inr tt /\
  commands
    (emitted default_process (snd (upgrade ok_env default_process))) =
    [ ["az"; "login"];
      ["az"; "account"; "set"; "-s"; "Turing-BinderHub"];
      ["az"; "aks"; "get-credentials"; "-n"; "hub23cluster"; "-g"; "Hub23"];
      ["helm"; "init"; "--client-only"];
      ["helm"; "dependency"; "update"];
      ["helm"; "upgrade"; "hub23"; "hub23-chart";
       "-f"; "deploy/prod.yaml"; "-f"; ".secret/prod.yaml"; "--wait"];
      ["kubectl"; "get"; "pods"; "-n"; "hub23"] ].
Proof.
  assert (Hr : commands_succeeded
                 (emitted default_process
                    (snd (upgrade ok_env default_process))))
    by all_zero.
  assert (Hc : chdirs_succeeded
                 (emitted default_process
                    (snd (upgrade ok_env default_process))))
    by no_failed_chdir.
  split; [exact Hr|]. split; [exact Hc|].
  exact (successful_run_order ok_env default_process Hr Hc).
Defined.

(** C4, as it is stated, fails.  With the default options and no directory
    [hub23-chart] to change into, every subprocess that is run returns
    zero, [os.chdir] raises after the fourth, and the last three are never
    run. *)
Lemma all_zero_run_without_chart_directory :
  ~ (forall env p,
       commands_succeeded (emitted p (snd (upgrade env p))) ->
       commands (emitted p (snd (upgrade env p))) =
         upgrade_commands (bot p)).
Proof.
  intros H.
  specialize (H no_chart_env default_process).
  assert (Hr : commands_succeeded
                 (emitted default_process
                    (snd (upgrade no_chart_env default_process))))
    by all_zero.
  specialize (H Hr). vm_compute in H. discriminate H.
Qed.

(** ** The subscription *)

(** C5.  The second command of [login], and so of a run, is
    [az account set -s] followed by one argument: the subscription between
    double quotes when one of its characters is a space, the subscription
    as it is when none is.  It is run whenever the first command returned
    zero. *)
Theorem subscription_quoting env p :
  (forall c,
     nth_error (commands (emitted p (snd (login env p)))) 1 = Some c \/
     nth_error (commands (emitted p (snd (upgrade env p)))) 1 = Some c ->
     (In " "%char (list_ascii_of_string (subscription (bot p))) ->
      c = ["az"; "account"; "set"; "-s";
           (dquote ++ subscription (bot p) ++ dquote)%string]) /\
     (~ In " "%char (list_ascii_of_string (subscription (bot p))) ->
      c = ["az"; "account"; "set"; "-s"; subscription (bot p)])) /\
  (forall c0 r0,
     nth_error (runs (emitted p (snd (login env p)))) 0 = Some (c0, r0) ->
     returncode r0 = 0 ->
     exists c,
       nth_error (commands (emitted p (snd (login env p)))) 1 = Some c).
Proof.
  split.
  - intros c H.
    assert (Hc : c = ["az"; "account"; "set"; "-s";
                      if str_in " " (subscription (bot p))
                      then (dquote ++ subscription (bot p) ++ dquote)%string
                      else subscription (bot p)]).
    { destruct H as [H|H].
      - rewrite login_replay, replay_emitted in H.
        apply play_commands in H. injection H as <-. reflexivity.
      - apply upgrade_commands_nth in H. injection H as <-. reflexivity. }
    pose proof (str_in_space (subscription (bot p))) as Hs.
    destruct (str_in " " (subscription (bot p))); split; intros Hin.
    + exact Hc.
    + exfalso. apply Hin, Hs. reflexivity.
    + apply Hs in Hin. discriminate Hin.
    + exact Hc.
  - rewrite login_replay, replay_emitted. unfold login_script.
    cbn [play]. tidy. intros c0 r0.
    repeat env_step; cbn [snd runs commands map fst nth_error];
      intros H0 Hz; try (eexists; reflexivity).
    injection H0 as _ <-. contradiction.
Qed.

Lemma subscription_quoting_witness :
  In " "%char
    (list_ascii_of_string (subscription (bot spaced_process))) /\
  nth_error
    (commands (emitted spaced_process (snd (login ok_env spaced_process))))
    1 =
    Some ["az"; "account"; "set"; "-s";
          (dquote ++ "Turing BinderHub" ++ dquote)%string].
Proof.
  assert (Hin : In " "%char
                  (list_ascii_of_string (subscription (bot spaced_process))))
    by (vm_compute; tauto).
  split; [exact Hin|].
  destruct (subscription_quoting ok_env spaced_process) as [Hq _].
  assert (H : exists c,
             nth_error
               (commands (emitted spaced_process
                            (snd (login ok_env spaced_process)))) 1
             = Some c) by (vm_compute; eexists; reflexivity).
  destruct H as [c H]. rewrite H. f_equal.
  exact (proj1 (Hq c (or_introl H)) Hin).
Defined.

(** ** The working directory *)

(** C6.  In [update_local_chart], a dependency update that returns a
    non-zero code makes the method raise [Exception] with its error text
    after one single [os.chdir], the one into the chart directory, which is
    where the process still is; a second [os.chdir] is the one to
    [os.pardir] and is only made after the command returned zero.  In a run
    of [upgrade] the fifth command is that update, and when it fails the
    run ends with the process in the chart directory. *)
Theorem failed_update_stays_in_chart_dir env p :
  (forall c r,
     In (c, r) (runs (emitted p (snd (update_local_chart env p)))) ->
     returncode r <> 0 ->
     fst (update_local_chart env p) = inl (Exception (err_msg r)) /\
     chdirs (emitted p (snd (update_local_chart env p))) =
       [(chart_name (bot p),
         Some (cwd (snd (update_local_chart env p))))]) /\
  (forall path now,
     nth_error (chdirs (emitted p (snd (update_local_chart env p)))) 1 =
       Some (path, now) ->
     path = os_pardir /\
     exists c r,
       runs (emitted p (snd (update_local_chart env p))) = [(c, r)] /\
       returncode r = 0) /\
  (forall c r,
     nth_error (runs (emitted p (snd (upgrade env p)))) 4 = Some (c, r) ->
     returncode r <> 0 ->
     c = ["helm"; "dependency"; "update"] /\
     fst (upgrade env p) = inl (Exception (err_msg r)) /\
     chdirs (emitted p (snd (upgrade env p))) =
       [(chart_name (bot p), Some (cwd (snd (upgrade env p))))]).
Proof.
  split; [|split].
  - rewrite update_replay, replay_emitted, replay_outcome, replay_cwd.
    unfold update_script. cbn [play]. tidy. intros c r.
    repeat env_step; cbn [fst snd runs chdirs In]; intros H Hnz;
      repeat (destruct H as [H|H]; [injection H as _ <-|]);
      try contradiction.
    split; reflexivity.
  - rewrite update_replay, replay_emitted.
    unfold update_script. cbn [play]. tidy. intros path now.
    repeat env_step; cbn [fst snd runs chdirs nth_error]; intros H;
      try discriminate H; injection H as <- _;
      (split; [reflexivity | eexists; eexists; split; [reflexivity|]]);
      assumption.
  - rewrite upgrade_emitted, upgrade_outcome, upgrade_cwd.
    unfold script, login_script, update_script, upgrade_script, pods_script.
    intros c r.
    destruct (dry_run (bot p)); cbn [app];
      repeat play_step; cbn [play fst snd runs chdirs nth_error];
      intros H Hnz; try discriminate H; injection H as <- <-;
      try contradiction.
    all: repeat split; reflexivity.
Qed.

Lemma failed_update_stays_in_chart_dir_witness :
  nth_error
    (runs (emitted default_process
             (snd (upgrade (failing_env 4) default_process)))) 4 =
    Some (["helm"; "dependency"; "update"], failed_result) /\
  returncode failed_result <> 0 /\
  fst (upgrade (failing_env 4) default_process) =
    inl (Exception "command failed") /\
  cwd (snd (upgrade (failing_env 4) default_process)) =
    "/srv/hub23-deploy/hub23-chart" /\
  chdirs
    (emitted default_process
       (snd (upgrade (failing_env 4) default_process))) =
    [("hub23-chart", Some "/srv/hub23-deploy/hub23-chart")].
Proof.
  assert (H : nth_error
                (runs (emitted default_process
                         (snd (upgrade (failing_env 4) default_process))))
                4
              = Some (["helm"; "dependency"; "update"], failed_result))
    by (vm_compute; reflexivity).
  assert (Hnz : returncode failed_result <> 0)
    by (vm_compute; discriminate).
  split; [exact H|]. split; [exact Hnz|].
  destruct (failed_update_stays_in_chart_dir (failing_env 4)
              default_process) as (_ & _ & Hrun).
  destruct (Hrun _ _ H Hnz) as (_ & Hexn & Hdirs).
  split; [exact Hexn|]. split; [vm_compute; reflexivity|].
  rewrite Hdirs. vm_compute. reflexivity.
Defined.

(** ** The pod listing *)

(** C7.  [print_pods] runs one command, [kubectl get pods -n] followed by
    the hub name, so [kubectl get pods -n demo] for the hub [demo]; it is
    the seventh command of a run, and the last one of a run that nothing
    stops. *)
Theorem pod_listing_namespace env p :
  commands (emitted p (snd (print_pods env p))) =
    [["kubectl"; "get"; "pods"; "-n"; hub_name (bot p)]] /\
  (hub_name (bot p) = "demo" ->
   commands (emitted p (snd (print_pods env p))) =
     [["kubectl"; "get"; "pods"; "-n"; "demo"]]) /\
  (forall c,
     nth_error (commands (emitted p (snd (upgrade env p)))) 6 = Some c ->
     c = ["kubectl"; "get"; "pods"; "-n"; hub_name (bot p)]) /\
  (commands_succeeded (emitted p (snd (upgrade env p))) ->
   chdirs_succeeded (emitted p (snd (upgrade env p))) ->
   last (commands (emitted p (snd (upgrade env p)))) [] =
     ["kubectl"; "get"; "pods"; "-n"; hub_name (bot p)]).
Proof.
  assert (Hpods : commands (emitted p (snd (print_pods env p))) =
                  [["kubectl"; "get"; "pods"; "-n"; hub_name (bot p)]]).
  { rewrite print_pods_replay, replay_emitted.
    unfold pods_script. cbn [play]. tidy.
    repeat env_step; reflexivity. }
  split; [exact Hpods|]. split; [|split].
  - intros Hdemo. rewrite Hpods, Hdemo. reflexivity.
  - intros c H. apply upgrade_commands_nth in H.
    injection H as <-. reflexivity.
  - intros Hr Hc. destruct (upgrade_success env p Hr Hc) as [_ ->].
    reflexivity.
Qed.

Lemma pod_listing_namespace_witness :
  hub_name (bot demo_process) = "demo" /\
  commands (emitted demo_process (snd (print_pods ok_env demo_process))) =
    [["kubectl"; "get"; "pods"; "-n"; "demo"]] /\
  last
    (commands (emitted demo_process (snd (upgrade ok_env demo_process))))
    [] =
    ["kubectl"; "get"; "pods"; "-n"; "demo"].
Proof.
  destruct (pod_listing_namespace ok_env demo_process)
    as (_ & Hdemo & _ & Hlast).
  split; [reflexivity|]. split.
  - apply Hdemo. reflexivity.
  - apply Hlast; [all_zero | no_failed_chdir].
Defined.

(** ** The object *)

(** C8.  No method assigns an attribute: after [upgrade], [login],
    [update_local_chart] and [print_pods], however they end, the object is
    the one the method was called on, and after the whole script it is the
    one [__init__] built from the command line. *)
Theorem configuration_immutable env p args dir :
  bot (snd (upgrade env p)) = bot p /\
  bot (snd (login env p)) = bot p /\
  bot (snd (update_local_chart env p)) = bot p /\
  bot (snd (print_pods env p)) = bot p /\
  bot (snd (main env args dir)) = Upgrade_init args.
Proof.
  unfold main.
  rewrite !upgrade_replay, login_replay, update_replay, print_pods_replay.
  rewrite !replay_bot. repeat split; reflexivity.
Qed.

(** ** The flags *)

(** C9.  [dry_run] skips nothing.  Under the same answers of the
    environment, the run with [dry_run] set and the run without end the
    same way, in the same directory, after the same changes of directory
    and the same number of subprocesses with the same results; their
    commands are taken from two lists of seven that differ in the sixth
    only, the helm upgrade, which has [--dry-run] after [--wait].  A dry
    run that nothing stops returns normally after all seven commands. *)
Theorem dry_run_skips_nothing env rs ds p :
  (fst (upgrade (scripted rs ds) (with_dry_run true p)) =
     fst (upgrade (scripted rs ds) (with_dry_run false p)) /\
   cwd (snd (upgrade (scripted rs ds) (with_dry_run true p))) =
     cwd (snd (upgrade (scripted rs ds) (with_dry_run false p))) /\
   map snd
     (runs (emitted p (snd (upgrade (scripted rs ds) (with_dry_run true p)))))
   = map snd
       (runs (emitted p
                (snd (upgrade (scripted rs ds) (with_dry_run false p))))) /\
   chdirs (emitted p (snd (upgrade (scripted rs ds) (with_dry_run true p))))
   = chdirs
       (emitted p (snd (upgrade (scripted rs ds) (with_dry_run false p))))) /\
  (exists n first5,
     length first5 = 5%nat /\
     commands
       (emitted p (snd (upgrade (scripted rs ds) (with_dry_run false p)))) =
       firstn n
         (first5 ++
          [["helm"; "upgrade"; hub_name (bot p); chart_name (bot p);
            "-f"; "deploy/prod.yaml"; "-f"; ".secret/prod.yaml"; "--wait"]
           ++ (if debug (bot p) then ["--debug"] else []);
           ["kubectl"; "get"; "pods"; "-n"; hub_name (bot p)]]) /\
     commands
       (emitted p (snd (upgrade (scripted rs ds) (with_dry_run true p)))) =
       firstn n
         (first5 ++
          [["helm"; "upgrade"; hub_name (bot p); chart_name (bot p);
            "-f"; "deploy/prod.yaml"; "-f"; ".secret/prod.yaml"; "--wait"]
           ++ ["--dry-run"] ++ (if debug (bot p) then ["--debug"] else []);
           ["kubectl"; "get"; "pods"; "-n"; hub_name (bot p)]])) /\
  (commands_succeeded (emitted p (snd (upgrade env (with_dry_run true p)))) ->
   chdirs_succeeded (emitted p (snd (upgrade env (with_dry_run true p)))) ->
   fst (upgrade env (with_dry_run true p)) = inr tt /\
   length (commands (emitted p (snd (upgrade env (with_dry_run true p))))) =
     7%nat /\
   nth_error (commands (emitted p (snd (upgrade env (with_dry_run true p)))))
     5 =
     Some (["helm"; "upgrade"; hub_name (bot p); chart_name (bot p);
            "-f"; "deploy/prod.yaml"; "-f"; ".secret/prod.yaml"; "--wait"]
           ++ ["--dry-run"] ++ (if debug (bot p) then ["--debug"] else []))).
Proof.
  set (real := with_dry_run false p). set (dry := with_dry_run true p).
  pose proof (upgrade_scripted rs ds p (set_dry_run true (bot p))
                (set_dry_run false (bot p)) eq_refl) as Hsame.
  cbv zeta in Hsame. fold (with_dry_run true p) in Hsame.
  fold (with_dry_run false p) in Hsame. fold real dry in Hsame.
  split; [exact Hsame|]. split.
  - destruct Hsame as (_ & _ & Hruns & _).
    exists (length (runs (emitted p (snd (upgrade (scripted rs ds) real))))),
           (firstn 5 (upgrade_commands (bot real))).
    split; [reflexivity|]. split.
    + exact (upgrade_commands_firstn (scripted rs ds) real).
    + replace (length (runs (emitted p (snd (upgrade (scripted rs ds) real)))))
        with (length (runs (emitted p (snd (upgrade (scripted rs ds) dry))))).
      * exact (upgrade_commands_firstn (scripted rs ds) dry).
      * rewrite <- (length_map snd), Hruns. apply length_map.
  - intros Hr Hc.
    destruct (upgrade_success env dry Hr Hc) as [Hres Hcmds].
    split; [exact Hres|].
    change (emitted p (snd (upgrade env dry)))
      with (emitted dry (snd (upgrade env dry))).
    rewrite Hcmds. split; reflexivity.
Qed.

Lemma dry_run_skips_nothing_witness :
  commands_succeeded
    (emitted default_process
       (snd (upgrade ok_env (with_dry_run true default_process)))) /\
  chdirs_succeeded
    (emitted default_process
       (snd (upgrade ok_env (with_dry_run true default_process)))) /\
  fst (upgrade ok_env (with_dry_run true default_process)) = inr tt /\
  length
    (commands
       (emitted default_process
          (snd (upgrade ok_env (with_dry_run true default_process))))) =
    7%nat /\
  nth_error
    (commands
       (emitted default_process
          (snd (upgrade ok_env (with_dry_run true default_process))))) 5 =
    Some ["helm"; "upgrade"; "hub23"; "hub23-chart";
          "-f"; "deploy/prod.yaml"; "-f"; ".secret/prod.yaml"; "--wait";
          "--dry-run"].
Proof.
  assert (Hr : commands_succeeded
                 (emitted default_process
                    (snd (upgrade ok_env
                            (with_dry_run true default_process)))))
    by all_zero.
  assert (Hc : chdirs_succeeded
                 (emitted default_process
                    (snd (upgrade ok_env
                            (with_dry_run true default_process)))))
    by no_failed_chdir.
  split; [exact Hr|]. split; [exact Hc|].
  destruct (dry_run_skips_nothing ok_env (fun _ => ok_result)
              (fun _ => Some srv) default_process) as (_ & _ & Hall).
  exact (Hall Hr Hc).
Defined.

(** C10.  [identity] only shows in the login command.  The first command of
    a run is [az login], with [--identity] after it when the flag is set
    and nothing after it when it is not.  For two objects that differ in the
    flag only, the commands after the first are the same wherever both runs
    have one, and under the same answers of the environment both runs end
    the same way after the same commands but the first. *)
Theorem identity_only_affects_login env env' rs ds p b :
  hd_error (commands (emitted p (snd (upgrade env p)))) =
    Some (["az"; "login"] ++
          (if identity (bot p) then ["--identity"] else [])) /\
  (forall k c c',
     k <> 0%nat ->
     nth_error (commands (emitted p (snd (upgrade env p)))) k = Some c ->
     nth_error
       (commands (emitted p (snd (upgrade env' (with_identity b p))))) k =
       Some c' ->
     c = c') /\
  fst (upgrade (scripted rs ds) (with_identity b p)) =
    fst (upgrade (scripted rs ds) p) /\
  cwd (snd (upgrade (scripted rs ds) (with_identity b p))) =
    cwd (snd (upgrade (scripted rs ds) p)) /\
  tl (commands
        (emitted p (snd (upgrade (scripted rs ds) (with_identity b p))))) =
    tl (commands (emitted p (snd (upgrade (scripted rs ds) p)))).
Proof.
  set (q := with_identity b p). split; [|split].
  - rewrite upgrade_emitted. unfold script, login_script.
    destruct (dry_run (bot p)); cbn [app];
      [do 3 play_step | do 2 play_step];
      cbn [commands runs map fst hd_error]; reflexivity.
  - intros k c c' Hk H H'.
    apply upgrade_commands_nth in H.
    change (emitted p (snd (upgrade env' q)))
      with (emitted q (snd (upgrade env' q))) in H'.
    apply upgrade_commands_nth in H'.
    destruct k as [|k]; [contradiction|].
    cbn [upgrade_commands nth_error] in H, H'.
    cbn [q with_identity with_bot bot set_identity hub_name chart_name
         cluster_name resource_group subscription dry_run debug] in H'.
    congruence.
  - assert (Hp : with_bot (bot p) p = p) by (destruct p; reflexivity).
    pose proof (upgrade_scripted rs ds p (set_identity b (bot p)) (bot p)
                  eq_refl) as Hsame.
    cbv zeta in Hsame. rewrite Hp in Hsame.
    fold (with_identity b p) in Hsame. fold q in Hsame.
    destruct Hsame as (Hres & Hcwd & Hruns & _).
    split; [exact Hres|]. split; [exact Hcwd|].
    change (emitted p (snd (upgrade (scripted rs ds) q)))
      with (emitted q (snd (upgrade (scripted rs ds) q))) in *.
    rewrite !upgrade_commands_firstn.
    replace (length (runs (emitted q (snd (upgrade (scripted rs ds) q)))))
      with (length (runs (emitted p (snd (upgrade (scripted rs ds) p)))))
      by (rewrite <- (length_map snd), <- Hruns; apply length_map).
    destruct (length (runs (emitted p (snd (upgrade (scripted rs ds) p)))));
      reflexivity.
Qed.

Lemma identity_only_affects_login_witness :
  nth_error
    (commands (emitted default_process (snd (upgrade ok_env default_process))))
    1 = Some ["az"; "account"; "set"; "-s"; "Turing-BinderHub"] /\
  nth_error
    (commands
       (emitted default_process
          (snd (upgrade (failing_env 3) (with_identity true default_process)))))
    1 = Some ["az"; "account"; "set"; "-s"; "Turing-BinderHub"].
Proof.
  assert (H : nth_error
                (commands
                   (emitted default_process
                      (snd (upgrade ok_env default_process)))) 1
              = Some ["az"; "account"; "set"; "-s"; "Turing-BinderHub"])
    by (vm_compute; reflexivity).
  assert (H' : exists c',
             nth_error
               (commands
                  (emitted default_process
                     (snd (upgrade (failing_env 3)
                             (with_identity true default_process))))) 1
             = Some c') by (vm_compute; eexists; reflexivity).
  destruct H' as [c' H'].
  destruct (identity_only_affects_login ok_env (failing_env 3)
              (fun _ => ok_result) (fun _ => Some srv) default_process true)
    as (_ & Hsame & _).
  split; [exact H|].
  rewrite H'. f_equal. symmetry.
  exact (Hsame 1%nat _ c' (Nat.neq_succ_0 0) H H').
Defined.

(** * More properties of the script *)

(** ** What is logged *)

(** Plays the first action of the script in [H : pl = play ...], on every
    answer the environment may give. *)
Ltac play_step_in H :=
  match type of H with
  | context [play ?e (ALog ?m :: ?a) ?tr ?d] =>
      rewrite (play_log e m a tr d) in H
  | context [play ?e (ARun ?c ?ok :: ?a) ?tr ?d] =>
      let r := fresh "r" in
      let Er := fresh "E" r in
      let Hr := fresh "H" r in
      remember (exec e tr d c) as r eqn:Er in H;
      destruct (Z.eq_dec (returncode r) 0) as [Hr|Hr];
      [ rewrite (play_run_ok e c ok a tr d r Er Hr) in H
      | rewrite (play_run_failed e c ok a tr d r Er Hr) in H ];
      clear Er
  | context [play ?e (AChdir ?q :: ?a) ?tr ?d] =>
      let d1 := fresh "d" in
      let Ed := fresh "E" d1 in
      destruct (chdir e tr d q) as [d1|] eqn:Ed;
      [ rewrite (play_chdir_ok e q a tr d d1 Ed) in H
      | rewrite (play_chdir_failed e q a tr d Ed) in H ];
      clear Ed
  end.

(** Runs [upgrade] on its script, on every answer of the environment: the
    goal is left with the outcome, the directory and the events of each
    way the run can go. *)
Ltac run_upgrade p :=
  rewrite ?upgrade_emitted, ?upgrade_outcome, ?upgrade_cwd;
  let pl := fresh "pl" in
  let Hpl := fresh "Hpl" in
  match goal with
  | |- context [play ?e (script (bot p)) ?tr ?d] =>
      remember (play e (script (bot p)) tr d) as pl eqn:Hpl
  end;
  unfold script, login_script, update_script, upgrade_script, pods_script,
    upgrade_message, upgrade_flags in Hpl;
  destruct (dry_run (bot p)) eqn:?; cbn [app] in Hpl;
  repeat play_step_in Hpl;
  cbn [play push fst snd] in Hpl; subst pl; cbn [fst snd].

(** X1.  The record behind every check.  In a run of [upgrade], what comes
    right after a subprocess is one log record: at level ERROR the error
    text when the return code is not zero; at level INFO, when it is zero,
    a fixed sentence after [az login], a sentence naming the subscription
    after [az account set], and the captured output after each of the five
    other commands. *)
Theorem check_record env p k cmd r next :
  nth_error (checks (emitted p (snd (upgrade env p)))) k =
    Some (cmd, r, next) ->
  (returncode r <> 0 -> next = Some (Log ERROR (err_msg r))) /\
  (returncode r = 0 ->
   next = Some (Log INFO
                  match k with
                  | 0%nat => "Successfully logged into Azure"
                  | 1%nat =>
                      ("Successfully set Azure subscription: " ++
                       subscription (bot p))%string
                  | _ => output r
                  end)).
Proof.
  run_upgrade p; cbn [checks hd_error];
    destruct k as [|[|[|[|[|[|[|k]]]]]]]; cbn [nth_error];
    intros H; try discriminate H; try (destruct k; discriminate H);
    injection H as <- <- <-;
    (split; intros Hr; [try reflexivity; contradiction
                       | try reflexivity; contradiction]).
Qed.

Lemma check_record_witness :
  nth_error
    (checks (emitted default_process
               (snd (upgrade (failing_env 3) default_process)))) 2 =
    Some (["az"; "aks"; "get-credentials";
           "-n"; "hub23cluster"; "-g"; "Hub23"], ok_result,
          Some (Log INFO "done")) /\
  nth_error
    (checks (emitted default_process
               (snd (upgrade (failing_env 3) default_process)))) 3 =
    Some (["helm"; "init"; "--client-only"], failed_result,
          Some (Log ERROR "command failed")).
Proof.
  assert (H2 : exists next,
             nth_error
               (checks (emitted default_process
                          (snd (upgrade (failing_env 3) default_process))))
               2
             = Some (["az"; "aks"; "get-credentials";
                      "-n"; "hub23cluster"; "-g"; "Hub23"], ok_result,
                     next)) by (vm_compute; eexists; reflexivity).
  assert (H3 : exists next,
             nth_error
               (checks (emitted default_process
                          (snd (upgrade (failing_env 3) default_process))))
               3
             = Some (["helm"; "init"; "--client-only"], failed_result,
                     next)) by (vm_compute; eexists; reflexivity).
  destruct H2 as [n2 H2]. destruct H3 as [n3 H3]. split.
  - rewrite H2. do 2 f_equal.
    apply (check_record (failing_env 3) default_process 2 _ _ _ H2).
    reflexivity.
  - rewrite H3. do 2 f_equal.
    apply (check_record (failing_env 3) default_process 3 _ _ _ H3).
    vm_compute. discriminate.
Defined.

(** A script logs at level ERROR when it ends in [Exception], and then
    once, the text of the exception, as its last event. *)
Lemma play_errors env acts : forall tr d,
  errors (snd (play env acts tr d)) =
  match fst (fst (play env acts tr d)) with
  | inl (Exception msg) => [msg]
  | _ => []
  end.
Proof.
  induction acts as [|[msg|cmd okmsg|path] acts IH]; intros tr d;
    cbn [play].
  - reflexivity.
  - specialize (IH (tr ++ [Log INFO msg]) d).
    destruct (play env acts _ d) as [[res d'] ev]. exact IH.
  - cbv zeta. destruct (returncode _ =? 0); [|reflexivity].
    match goal with
    | |- context [play env acts ?t d] => specialize (IH t d)
    end.
    destruct (play env acts _ d) as [[res d'] ev]. exact IH.
  - destruct (chdir env tr d path) as [d1|]; [|reflexivity].
    specialize (IH (tr ++ [Chdir path (Some d1)]) d1).
    destruct (play env acts _ d1) as [[res d'] ev]. exact IH.
Qed.

Lemma play_exception_last env acts : forall tr d msg,
  fst (fst (play env acts tr d)) = inl (Exception msg) ->
  exists pre cmd r,
    snd (play env acts tr d) = pre ++ [Run cmd r; Log ERROR msg] /\
    returncode r <> 0 /\ err_msg r = msg.
Proof.
  induction acts as [|[m|cmd okmsg|path] acts IH]; intros tr d msg;
    cbn [play].
  - discriminate.
  - specialize (IH (tr ++ [Log INFO m]) d msg).
    destruct (play env acts _ d) as [[res d'] ev]. cbn [fst snd] in *.
    intros H. destruct (IH H) as (pre & c & r & -> & Hr).
    exists (Log INFO m :: pre), c, r. split; [reflexivity | exact Hr].
  - cbv zeta.
    destruct (Z.eqb_spec (returncode (exec env tr d cmd)) 0) as [Hz|Hnz].
    + match goal with
      | |- context [play env acts ?t d] => specialize (IH t d msg)
      end.
      destruct (play env acts _ d) as [[res d'] ev]. cbn [fst snd] in *.
      intros H. destruct (IH H) as (pre & c & r & -> & Hr).
      eexists (_ :: _ :: pre), c, r. split; [reflexivity | exact Hr].
    + cbn [fst snd]. intros [= <-].
      exists [], cmd, (exec env tr d cmd). repeat split. exact Hnz.
  - destruct (chdir env tr d path) as [d1|]; [|discriminate].
    specialize (IH (tr ++ [Chdir path (Some d1)]) d1 msg).
    destruct (play env acts _ d1) as [[res d'] ev]. cbn [fst snd] in *.
    intros H. destruct (IH H) as (pre & c & r & -> & Hr).
    exists (Chdir path (Some d1) :: pre), c, r.
    split; [reflexivity | exact Hr].
Qed.

(** X2.  One ERROR record, or none.  A run of [upgrade] that raises
    [Exception] has logged at level ERROR once, the text of the exception,
    and that record is its last event, right after the subprocess that
    failed.  A run that returns, or is stopped by [os.chdir], has logged
    nothing at level ERROR. *)
Theorem error_record_of_run env p :
  errors (emitted p (snd (upgrade env p))) =
    match fst (upgrade env p) with
    | inl (Exception msg) => [msg]
    | _ => []
    end /\
  (forall msg,
     fst (upgrade env p) = inl (Exception msg) ->
     exists pre cmd r,
       emitted p (snd (upgrade env p)) =
         pre ++ [Run cmd r; Log ERROR msg] /\
       returncode r <> 0 /\ err_msg r = msg).
Proof.
  rewrite upgrade_emitted, upgrade_outcome. split.
  - apply play_errors.
  - apply play_exception_last.
Qed.

Lemma error_record_of_run_witness :
  fst (upgrade (failing_env 5) dry_run_process) =
    inl (Exception "command failed") /\
  errors
    (emitted dry_run_process
       (snd (upgrade (failing_env 5) dry_run_process))) =
    ["command failed"] /\
  exists pre cmd r,
    emitted dry_run_process (snd (upgrade (failing_env 5) dry_run_process)) =
      pre ++ [Run cmd r; Log ERROR "command failed"] /\
    returncode r <> 0 /\ err_msg r = "command failed".
Proof.
  assert (H : fst (upgrade (failing_env 5) dry_run_process) =
              inl (Exception "command failed")) by (vm_compute; reflexivity).
  split; [exact H|].
  destruct (error_record_of_run (failing_env 5) dry_run_process)
    as [Herr Hlast].
  split; [rewrite Herr, H; reflexivity | exact (Hlast _ H)].
Defined.

(** ** When [os.chdir] raises *)

(** X3.  A run of [upgrade] that ends in the [OSError] of [os.chdir] has
    logged nothing at level ERROR and its last event is the failed call.
    Either the chart directory could not be entered: only the four commands of
    [login] were run and the process is where it started.  Or [os.pardir]
    could not: the dependency update was the fifth and last command and the
    process is still in the chart directory. *)
Theorem chdir_failure_stops_run env p path :
  fst (upgrade env p) = inl (OSError path) ->
  errors (emitted p (snd (upgrade env p))) = [] /\
  last (emitted p (snd (upgrade env p))) (Log INFO EmptyString) =
    Chdir path None /\
  ((path = chart_name (bot p) /\
    commands (emitted p (snd (upgrade env p))) =
      firstn 4 (upgrade_commands (bot p)) /\
    chdirs (emitted p (snd (upgrade env p))) =
      [(chart_name (bot p), None)] /\
    cwd (snd (upgrade env p)) = cwd p) \/
   (path = os_pardir /\
    commands (emitted p (snd (upgrade env p))) =
      firstn 5 (upgrade_commands (bot p)) /\
    chdirs (emitted p (snd (upgrade env p))) =
      [(chart_name (bot p), Some (cwd (snd (upgrade env p))));
       (os_pardir, None)])).
Proof.
  unfold upgrade_commands. run_upgrade p;
    intros H; try discriminate H; injection H as <-;
    cbn [errors last commands runs chdirs map fst firstn app];
    (split; [reflexivity|]); (split; [reflexivity|]);
    first [ left; repeat split; reflexivity
          | right; repeat split; reflexivity ].
Qed.

Lemma chdir_failure_stops_run_witness :
  fst (upgrade no_chart_env default_process) =
    inl (OSError "hub23-chart") /\
  commands (emitted default_process
              (snd (upgrade no_chart_env default_process))) =
    [["az"; "login"];
     ["az"; "account"; "set"; "-s"; "Turing-BinderHub"];
     ["az"; "aks"; "get-credentials"; "-n"; "hub23cluster"; "-g"; "Hub23"];
     ["helm"; "init"; "--client-only"]] /\
  cwd (snd (upgrade no_chart_env default_process)) = "/srv/hub23-deploy".
Proof.
  assert (H : fst (upgrade no_chart_env default_process) =
              inl (OSError "hub23-chart")) by (vm_compute; reflexivity).
  split; [exact H|].
  destruct (chdir_failure_stops_run no_chart_env default_process _ H)
    as (_ & _ & [(_ & Hcmds & _ & Hcwd) | (Hpath & _)]).
  - split; [exact Hcmds | exact Hcwd].
  - discriminate Hpath.
Defined.

(** A script without [os.chdir] leaves the process where it is and cannot
    end in [OSError]. *)
Lemma play_no_chdir env acts :
  (forall path, ~ In (AChdir path) acts) ->
  forall tr d,
    snd (fst (play env acts tr d)) = d /\
    chdirs (snd (play env acts tr d)) = [] /\
    forall path, fst (fst (play env acts tr d)) <> inl (OSError path).
Proof.
  induction acts as [|[msg|cmd okmsg|path] acts IH]; intros Hno tr d;
    cbn [play].
  - repeat split. discriminate.
  - assert (Hno' : forall path, ~ In (AChdir path) acts)
      by (intros q Hq; apply (Hno q); right; exact Hq).
    specialize (IH Hno' (tr ++ [Log INFO msg]) d).
    destruct (play env acts _ d) as [[res d'] ev]. exact IH.
  - assert (Hno' : forall path, ~ In (AChdir path) acts)
      by (intros q Hq; apply (Hno q); right; exact Hq).
    cbv zeta. destruct (returncode _ =? 0).
    + match goal with
      | |- context [play env acts ?t d] => specialize (IH Hno' t d)
      end.
      destruct (play env acts _ d) as [[res d'] ev]. exact IH.
    + repeat split. discriminate.
  - exfalso. apply (Hno path). left. reflexivity.
Qed.

(** X4.  [login] and [print_pods] do not move.  Neither calls [os.chdir]:
    however they end, the process is in the directory it was in, and they
    never end in [OSError]. *)
Theorem login_and_print_pods_stay_put env p :
  (cwd (snd (login env p)) = cwd p /\
   chdirs (emitted p (snd (login env p))) = [] /\
   forall path, fst (login env p) <> inl (OSError path)) /\
  (cwd (snd (print_pods env p)) = cwd p /\
   chdirs (emitted p (snd (print_pods env p))) = [] /\
   forall path, fst (print_pods env p) <> inl (OSError path)).
Proof.
  rewrite login_replay, print_pods_replay.
  rewrite !replay_cwd, !replay_emitted, !replay_outcome.
  split; apply play_no_chdir; intros path Hin; cbn [In login_script
    pods_script] in Hin;
    repeat (destruct Hin as [Hin|Hin]; [discriminate Hin|]);
    contradiction.
Qed.

(** X5.  [update_local_chart] returns normally only after the three things
    it does went through, in this order: the change into the chart
    directory, a dependency update that returned zero, the change to
    [os.pardir].  The trace of the call is exactly: the record that
    announces the update, the change into the chart directory, the
    dependency update, the record of its output, the change to [os.pardir];
    the update is run in the chart directory, the change to [os.pardir] is
    made from there after it, and the process is then where that last
    change led.  When the chart directory cannot be entered it raises
    [OSError] at once: the trace ends with the failed change, no command is
    run and the process stays where it was. *)
Theorem update_local_chart_directories env p :
  (fst (update_local_chart env p) = inr tt ->
   exists d1 d2 r,
     returncode r = 0 /\
     emitted p (snd (update_local_chart env p)) =
       [Log INFO
          ("Updating local chart dependencies: " ++ chart_name (bot p))%string;
        Chdir (chart_name (bot p)) (Some d1);
        Run ["helm"; "dependency"; "update"] r;
        Log INFO (output r);
        Chdir os_pardir (Some d2)] /\
     chdir env
       (trace p ++
        [Log INFO
           ("Updating local chart dependencies: "
              ++ chart_name (bot p))%string])
       (cwd p) (chart_name (bot p)) = Some d1 /\
     r = exec env
           (trace p ++
            [Log INFO
               ("Updating local chart dependencies: "
                  ++ chart_name (bot p))%string;
             Chdir (chart_name (bot p)) (Some d1)])
           d1 ["helm"; "dependency"; "update"] /\
     chdir env
       (trace p ++
        [Log INFO
           ("Updating local chart dependencies: "
              ++ chart_name (bot p))%string;
         Chdir (chart_name (bot p)) (Some d1);
         Run ["helm"; "dependency"; "update"] r;
         Log INFO (output r)])
       d1 os_pardir = Some d2 /\
     runs (emitted p (snd (update_local_chart env p))) =
       [(["helm"; "dependency"; "update"], r)] /\
     chdirs (emitted p (snd (update_local_chart env p))) =
       [(chart_name (bot p), Some d1); (os_pardir, Some d2)] /\
     cwd (snd (update_local_chart env p)) = d2) /\
  (forall path,
     hd_error (chdirs (emitted p (snd (update_local_chart env p)))) =
       Some (path, None) ->
     path = chart_name (bot p) /\
     fst (update_local_chart env p) = inl (OSError (chart_name (bot p))) /\
     emitted p (snd (update_local_chart env p)) =
       [Log INFO
          ("Updating local chart dependencies: " ++ chart_name (bot p))%string;
        Chdir (chart_name (bot p)) None] /\
     runs (emitted p (snd (update_local_chart env p))) = [] /\
     cwd (snd (update_local_chart env p)) = cwd p).
Proof.
  rewrite update_replay, replay_emitted, replay_outcome, replay_cwd.
  unfold update_script. cbn [play]. cbv zeta.
  repeat rewrite <- app_assoc. cbn [app].
  destruct (chdir env _ (cwd p) (chart_name (bot p))) as [d1|] eqn:E1.
  - remember (exec env _ d1 ["helm"; "dependency"; "update"]) as r eqn:Er.
    destruct (returncode r =? 0) eqn:Ez.
    + destruct (chdir env _ d1 os_pardir) as [d2|] eqn:E2;
        cbn [fst snd runs chdirs hd_error].
      * split; [intros _|intros path H; discriminate H].
        exists d1, d2, r. apply Z.eqb_eq in Ez.
        repeat rewrite <- app_assoc in Er. repeat rewrite <- app_assoc in E2.
        cbn [app] in Er, E2.
        repeat split; assumption.
      * split; [intros H; discriminate H|intros path H; discriminate H].
    + cbn [fst snd runs chdirs hd_error].
      split; [intros H; discriminate H|intros path H; discriminate H].
  - cbn [fst snd runs chdirs hd_error].
    split; [intros H; discriminate H|].
    intros path H. injection H as <-. repeat split.
Qed.

Lemma update_local_chart_directories_witness :
  fst (update_local_chart ok_env default_process) = inr tt /\
  emitted default_process
    (snd (update_local_chart ok_env default_process)) =
    [Log INFO "Updating local chart dependencies: hub23-chart";
     Chdir "hub23-chart" (Some "/srv/hub23-deploy/hub23-chart");
     Run ["helm"; "dependency"; "update"] ok_result;
     Log INFO (output ok_result);
     Chdir os_pardir (Some "/srv/hub23-deploy")] /\
  cwd (snd (update_local_chart ok_env default_process)) =
    "/srv/hub23-deploy" /\
  hd_error
    (chdirs (emitted default_process
               (snd (update_local_chart no_chart_env default_process)))) =
    Some ("hub23-chart", None) /\
  runs (emitted default_process
          (snd (update_local_chart no_chart_env default_process))) = [].
Proof.
  assert (H : fst (update_local_chart ok_env default_process) = inr tt)
    by (vm_compute; reflexivity).
  assert (H' : hd_error
                 (chdirs
                    (emitted default_process
                       (snd (update_local_chart no_chart_env
                               default_process)))) =
               Some ("hub23-chart", None)) by (vm_compute; reflexivity).
  split; [exact H|].
  destruct (update_local_chart_directories ok_env default_process)
    as [Hok _].
  destruct (Hok H) as (d1 & d2 & r & _ & Hev & Hd1 & Hr & Hd2 & _ & _ & Hcwd).
  vm_compute in Hd1. injection Hd1 as <-.
  vm_compute in Hr. subst r.
  vm_compute in Hd2. injection Hd2 as <-.
  split; [exact Hev|]. split; [exact Hcwd|]. split; [exact H'|].
  destruct (update_local_chart_directories no_chart_env default_process)
    as [_ Hfail].
  destruct (Hfail _ H') as (_ & _ & _ & Hruns & _). exact Hruns.
Defined.

(** ** What announces the upgrade *)

(** X6.  The dry-run notice.  The first thing a run of [upgrade] does is log
    a record, and that record is the notice
    [THIS IS A DRY-RUN. HELM CHART WILL NOT BE UPGRADED.] exactly when
    [dry_run] is set; no command has been run by then. *)
Theorem dry_run_notice_first env p :
  (hd_error (emitted p (snd (upgrade env p))) =
     Some (Log INFO "THIS IS A DRY-RUN. HELM CHART WILL NOT BE UPGRADED.")
   <-> dry_run (bot p) = true) /\
  exists msg rest,
    emitted p (snd (upgrade env p)) = Log INFO msg :: rest.
Proof.
  rewrite upgrade_emitted. unfold script, login_script.
  destruct (dry_run (bot p)); cbn [app]; play_step; cbn [hd_error].
  - split; [split; reflexivity | eexists; eexists; reflexivity].
  - split; [|eexists; eexists; reflexivity].
    split; [|discriminate].
    destruct (identity (bot p)); discriminate.
Qed.

(** X7.  The record that announces the upgrade.  In a run of [upgrade] the
    event right before the sixth command, the helm upgrade, is a record at
    level INFO with one of four sentences, chosen by [dry_run] and [debug];
    the four differ, so that two runs announced by the same record have the
    same two flags. *)
Theorem upgrade_announcement env p prev cmd :
  nth_error (announced None (emitted p (snd (upgrade env p)))) 5 =
    Some (prev, cmd) ->
  prev =
    Some (Log INFO
            match dry_run (bot p), debug (bot p) with
            | true, true =>
                "Performing a dry-run helm upgrade with debugging output"
            | true, false => "Performing a dry-run helm upgrade"
            | false, true =>
                "Performing a helm upgrade with debugging output"
            | false, false => "Upgrading helm chart"
            end) /\
  forall env' p' cmd',
    nth_error (announced None (emitted p' (snd (upgrade env' p')))) 5 =
      Some (prev, cmd') ->
    dry_run (bot p') = dry_run (bot p) /\ debug (bot p') = debug (bot p).
Proof.
  assert (Hmsg : forall e q pv c,
    nth_error (announced None (emitted q (snd (upgrade e q)))) 5 =
      Some (pv, c) ->
    pv = Some (Log INFO
                 match dry_run (bot q), debug (bot q) with
                 | true, true =>
                     "Performing a dry-run helm upgrade with debugging output"
                 | true, false => "Performing a dry-run helm upgrade"
                 | false, true =>
                     "Performing a helm upgrade with debugging output"
                 | false, false => "Upgrading helm chart"
                 end)).
  { intros e q pv c. run_upgrade q; cbn [announced nth_error];
      intros H; try discriminate H; injection H as <- _; reflexivity. }
  intros H. split; [exact (Hmsg _ _ _ _ H)|].
  intros env' p' cmd' H'.
  apply Hmsg in H. apply Hmsg in H'. rewrite H in H'.
  destruct (dry_run (bot p)), (debug (bot p)), (dry_run (bot p')),
    (debug (bot p')); first [split; reflexivity | discriminate H'].
Qed.

Lemma upgrade_announcement_witness :
  nth_error
    (announced None
       (emitted spaced_process (snd (upgrade ok_env spaced_process)))) 5 =
    Some (Some (Log INFO "Performing a helm upgrade with debugging output"),
          ["helm"; "upgrade"; "hub23"; "hub23-chart";
           "-f"; "deploy/prod.yaml"; "-f"; ".secret/prod.yaml"; "--wait";
           "--debug"]).
Proof.
  assert (H : exists prev,
             nth_error
               (announced None
                  (emitted spaced_process
                     (snd (upgrade ok_env spaced_process)))) 5 =
             Some (prev,
                   ["helm"; "upgrade"; "hub23"; "hub23-chart";
                    "-f"; "deploy/prod.yaml"; "-f"; ".secret/prod.yaml";
                    "--wait"; "--debug"]))
    by (vm_compute; eexists; reflexivity).
  destruct H as [prev H]. rewrite H. do 2 f_equal.
  exact (proj1 (upgrade_announcement ok_env spaced_process _ _ H)).
Defined.

(** ** What steers a run *)

(** X8.  No command line comes from the outside.  The [k]-th command of a
    run of [upgrade] is fixed by the object alone: two runs on equal objects
    have the same [k]-th command, if they have one, whatever the
    environments answered, whatever the directories they started in and
    whatever the traces they started with. *)
Theorem commands_fixed_by_object env env' p p' k c c' :
  bot p = bot p' ->
  nth_error (commands (emitted p (snd (upgrade env p)))) k = Some c ->
  nth_error (commands (emitted p' (snd (upgrade env' p')))) k = Some c' ->
  c = c'.
Proof.
  intros Hbot H H'.
  apply upgrade_commands_nth in H. apply upgrade_commands_nth in H'.
  rewrite Hbot in H. congruence.
Qed.

Lemma commands_fixed_by_object_witness :
  bot default_process = bot (fresh (bot default_process) "/tmp") /\
  nth_error
    (commands (emitted default_process
                 (snd (upgrade ok_env default_process)))) 2 =
  nth_error
    (commands
       (emitted (fresh (bot default_process) "/tmp")
          (snd (upgrade (failing_env 2)
                  (fresh (bot default_process) "/tmp"))))) 2.
Proof.
  split; [reflexivity|].
  assert (H : exists c,
             nth_error
               (commands (emitted default_process
                            (snd (upgrade ok_env default_process)))) 2 =
             Some c) by (vm_compute; eexists; reflexivity).
  assert (H' : exists c',
             nth_error
               (commands
                  (emitted (fresh (bot default_process) "/tmp")
                     (snd (upgrade (failing_env 2)
                             (fresh (bot default_process) "/tmp"))))) 2 =
             Some c') by (vm_compute; eexists; reflexivity).
  destruct H as [c H]. destruct H' as [c' H']. rewrite H, H'. f_equal.
  exact (commands_fixed_by_object ok_env (failing_env 2) default_process
           (fresh (bot default_process) "/tmp") 2 c c' eq_refl H H').
Defined.

(** Under scripted environments whose return codes are zero at the same
    places, a skeleton is played the same way up to the dictionaries
    returned and the text of the exception. *)
Lemma play_skel_codes rs rs' ds sk :
  (forall k, (returncode (rs k) =? 0) = (returncode (rs' k) =? 0)) ->
  forall nr nc d,
    snd (fst (fst (play_skel rs ds sk nr nc d))) =
      snd (fst (fst (play_skel rs' ds sk nr nc d))) /\
    length (snd (fst (play_skel rs ds sk nr nc d))) =
      length (snd (fst (play_skel rs' ds sk nr nc d))) /\
    snd (play_skel rs ds sk nr nc d) = snd (play_skel rs' ds sk nr nc d) /\
    (fst (fst (fst (play_skel rs ds sk nr nc d))) = inr tt <->
     fst (fst (fst (play_skel rs' ds sk nr nc d))) = inr tt) /\
    (forall path,
       fst (fst (fst (play_skel rs ds sk nr nc d))) = inl (OSError path) <->
       fst (fst (fst (play_skel rs' ds sk nr nc d))) = inl (OSError path)).
Proof.
  intros Hcodes.
  induction sk as [|[|path] sk IH]; intros nr nc d; cbn [play_skel].
  - repeat split; intros H; exact H.
  - cbv zeta. rewrite <- (Hcodes nr).
    destruct (returncode (rs nr) =? 0).
    + specialize (IH (S nr) nc d).
      destruct (play_skel rs ds sk (S nr) nc d) as [[[res d1] out] cds].
      destruct (play_skel rs' ds sk (S nr) nc d) as [[[res' d1'] out'] cds'].
      cbn [fst snd length] in *.
      destruct IH as (Hd & Hlen & Hcds & Hok & Hos).
      repeat split; try assumption; try (apply Hok); try (apply Hos).
      rewrite Hlen. reflexivity.
    + cbn [fst snd length]. repeat split; intros H; discriminate H.
  - destruct (ds nc) as [d1|].
    + specialize (IH nr (S nc) d1).
      destruct (play_skel rs ds sk nr (S nc) d1) as [[[res d2] out] cds].
      destruct (play_skel rs' ds sk nr (S nc) d1) as [[[res' d2'] out'] cds'].
      cbn [fst snd] in *.
      destruct IH as (Hd & Hlen & Hcds & Hok & Hos).
      repeat split; try assumption; try (apply Hok); try (apply Hos).
      rewrite Hcds. reflexivity.
    + cbn [fst snd]. repeat split; intros H; exact H.
Qed.

(** X9.  Only return codes steer a run.  Two runs of [upgrade] on the same
    process under environments that answer by position, with the same
    answers to [os.chdir] and return codes that are zero at the same
    places, run the same commands, make the same changes of directory, end
    in the same directory and end the same way: both return, both raise the
    same [OSError], or both raise [Exception].  What the commands print
    decides nothing. *)
Theorem only_return_codes_steer rs rs' ds p :
  (forall k, (returncode (rs k) =? 0) = (returncode (rs' k) =? 0)) ->
  commands (emitted p (snd (upgrade (scripted rs ds) p))) =
    commands (emitted p (snd (upgrade (scripted rs' ds) p))) /\
  chdirs (emitted p (snd (upgrade (scripted rs ds) p))) =
    chdirs (emitted p (snd (upgrade (scripted rs' ds) p))) /\
  cwd (snd (upgrade (scripted rs ds) p)) =
    cwd (snd (upgrade (scripted rs' ds) p)) /\
  (fst (upgrade (scripted rs ds) p) = inr tt <->
   fst (upgrade (scripted rs' ds) p) = inr tt) /\
  (forall path,
     fst (upgrade (scripted rs ds) p) = inl (OSError path) <->
     fst (upgrade (scripted rs' ds) p) = inl (OSError path)).
Proof.
  intros Hcodes.
  pose proof (play_skel_codes rs rs' ds (skeleton (script (bot p))) Hcodes
                (length (runs (trace p))) (length (chdirs (trace p)))
                (cwd p)) as H.
  rewrite !play_scripted in H. cbn [fst snd] in H.
  destruct H as (Hd & Hlen & Hcds & Hok & Hos).
  rewrite !length_map in Hlen.
  rewrite !upgrade_commands_firstn.
  rewrite !upgrade_emitted, !upgrade_cwd, !upgrade_outcome.
  rewrite Hlen. repeat split; try assumption; try (apply Hok);
    try (apply Hos).
Qed.

Lemma only_return_codes_steer_witness :
  commands
    (emitted default_process
       (snd (upgrade (scripted (fun _ => ok_result) (fun _ => Some srv))
               default_process))) =
  commands
    (emitted default_process
       (snd (upgrade
               (scripted
                  (fun _ => {| returncode := 0; output := "other output";
                               err_msg := "warning" |})
                  (fun _ => Some srv))
               default_process))).
Proof.
  apply (only_return_codes_steer (fun _ => ok_result)
           (fun _ => {| returncode := 0; output := "other output";
                        err_msg := "warning" |})
           (fun _ => Some srv) default_process).
  intros k. reflexivity.
Defined.

(** ** The object and the command line *)

Lemma getitem_setitem d key v key' :
  getitem (setitem d key v) key' =
  if String.eqb key key' then Some v else getitem d key'.
Proof.
  induction d as [|[k x] d IH]; cbn [setitem getitem].
  - destruct (String.eqb key key'); reflexivity.
  - destruct (String.eqb_spec k key) as [->|Hk]; cbn [getitem].
    + destruct (String.eqb key key'); reflexivity.
    + rewrite IH. destruct (String.eqb_spec k key') as [->|Hk'];
        [|reflexivity].
      destruct (String.eqb_spec key key') as [->|_];
        [contradiction | reflexivity].
Qed.

(** X10.  [__init__] on a dictionary that lacks a key.  It raises
    [KeyError] for the first of [hub_name], [chart_name], [cluster_name],
    [resource_group], [subscription], [identity], [dry_run], [debug] that
    the dictionary does not have, and builds the object exactly when it has
    all eight. *)
Theorem init_key_error d :
  (forall key,
     Upgrade_init_dict d = inl key <->
     find (missing d)
       ["hub_name"; "chart_name"; "cluster_name"; "resource_group";
        "subscription"; "identity"; "dry_run"; "debug"] = Some key) /\
  ((exists o, Upgrade_init_dict d = inr o) <->
   forall key,
     In key ["hub_name"; "chart_name"; "cluster_name"; "resource_group";
             "subscription"; "identity"; "dry_run"; "debug"] ->
     getitem d key <> None).
Proof.
  unfold Upgrade_init_dict, missing. cbn [find].
  repeat
    match goal with
    | |- context [getitem d ?k] =>
        lazymatch goal with
        | H : getitem d k = _ |- _ => fail
        | _ => destruct (getitem d k) eqn:?
        end
    end.
  all: split;
    [ intros key; split; intros H; first [discriminate H | exact H
                                         | injection H as <-; reflexivity]
    | split;
      [ intros [o H]; first [discriminate H | idtac]
      | intros H ] ].
  all: try (exfalso;
            match goal with
            | Hn : getitem _ ?k = None |- _ =>
                apply (H k); [cbn [In]; tauto | exact Hn]
            end).
  - intros key Hin. cbn [In] in Hin.
    repeat (destruct Hin as [<-|Hin]; [congruence|]). contradiction.
  - eexists. reflexivity.
Qed.

Lemma init_key_error_witness :
  Upgrade_init_dict
    [("hub_name", PStr "hub23"); ("chart_name", PStr "hub23-chart");
     ("cluster_name", PStr "hub23cluster"); ("debug", PBool false)] =
    inl "resource_group".
Proof.
  apply (init_key_error
           [("hub_name", PStr "hub23"); ("chart_name", PStr "hub23-chart");
            ("cluster_name", PStr "hub23cluster"); ("debug", PBool false)]).
  reflexivity.
Defined.

(** X11.  [__init__] reads eight keys and nothing else.  Two dictionaries
    that agree on the eight keys give the same result, whatever else they
    hold; and the attributes of the object built are the values found
    under the keys of the same names. *)
Theorem init_reads_eight_keys d :
  (forall d',
     (forall key,
        In key ["hub_name"; "chart_name"; "cluster_name"; "resource_group";
                "subscription"; "identity"; "dry_run"; "debug"] ->
        getitem d' key = getitem d key) ->
     Upgrade_init_dict d' = Upgrade_init_dict d) /\
  (forall o,
     Upgrade_init_dict d = inr o ->
     getitem d "hub_name" = Some (self_hub_name o) /\
     getitem d "chart_name" = Some (self_chart_name o) /\
     getitem d "cluster_name" = Some (self_cluster_name o) /\
     getitem d "resource_group" = Some (self_resource_group o) /\
     getitem d "subscription" = Some (self_subscription o) /\
     getitem d "identity" = Some (self_identity o) /\
     getitem d "dry_run" = Some (self_dry_run o) /\
     getitem d "debug" = Some (self_debug o)).
Proof.
  split.
  - intros d' H. unfold Upgrade_init_dict.
    rewrite !H by (cbn [In]; tauto). reflexivity.
  - intros o. unfold Upgrade_init_dict.
    repeat
      match goal with
      | |- context [match getitem d ?k with _ => _ end] =>
          destruct (getitem d k); [|discriminate]
      end.
    intros [= <-]. repeat split.
Qed.

Lemma init_reads_eight_keys_witness :
  Upgrade_init_dict (setitem (vars demo_args) "verbose" (PBool true)) =
  Upgrade_init_dict (vars demo_args).
Proof.
  apply (init_reads_eight_keys (vars demo_args)).
  intros key Hin. rewrite getitem_setitem.
  cbn [In] in Hin.
  repeat (destruct Hin as [<-|Hin]; [reflexivity|]). contradiction.
Defined.

(** The namespace of the parser always is the dictionary of a namespace
    with five strings and three booleans. *)
Lemma call_action_vars ns a arg_string :
  In a parser_arguments ->
  exists ns', call_action (vars ns) a arg_string = vars ns'.
Proof.
  intros Hin. cbn [In parser_arguments] in Hin.
  repeat (destruct Hin as [<-|Hin];
          [destruct ns; lazy; eexists (mkArgs _ _ _ _ _ _ _ _);
           reflexivity|]).
  contradiction.
Qed.

Lemma parse_args_namespace_vars seen :
  (forall o, In o seen -> In (fst o) parser_arguments) ->
  exists ns, parse_args_namespace seen = vars ns.
Proof.
  unfold parse_args_namespace.
  change namespace_defaults with (vars parse_args_defaults).
  generalize parse_args_defaults.
  induction seen as [|[a s] seen IH]; intros ns Hseen;
    cbn [fold_left fst snd].
  - exists ns. reflexivity.
  - destruct (call_action_vars ns a s) as [ns' ->].
    + apply (Hseen (a, s)). left. reflexivity.
    + apply IH. intros o Ho. apply Hseen. right. exact Ho.
Qed.

Lemma getitem_fold_other seen key : forall d,
  (forall o, In o seen -> get_dest (fst o) <> key) ->
  getitem (fold_left (fun ns o => call_action ns (fst o) (snd o)) seen d) key
  = getitem d key.
Proof.
  induction seen as [|o seen IH]; intros d H; cbn [fold_left].
  - reflexivity.
  - rewrite IH by (intros o' Ho'; apply H; right; exact Ho').
    unfold call_action. rewrite getitem_setitem.
    destruct (String.eqb_spec (get_dest (fst o)) key) as [Heq|_];
      [|reflexivity].
    exfalso. apply (H o); [left; reflexivity | exact Heq].
Qed.

(** X12.  [__init__] after [parse_args].  Whatever options the command line
    made the parser meet, the namespace is the dictionary of eight keys
    with five strings and three booleans, [__init__] finds every key it
    reads, and the object it builds is the one of the typed namespace.  An
    option that was not met has the default its [add_argument] gives (so an
    empty command line gives all the defaults), and an option that was met
    last has the string that followed it, or [True] for a flag. *)
Theorem init_after_parse_args seen :
  (forall o, In o seen -> In (fst o) parser_arguments) ->
  (exists ns,
     parse_args_namespace seen = vars ns /\
     Upgrade_init_dict (parse_args_namespace seen) =
       inr (dynamic (Upgrade_init ns))) /\
  (forall a,
     In a parser_arguments ->
     (forall o, In o seen -> get_dest (fst o) <> get_dest a) ->
     getitem (parse_args_namespace seen) (get_dest a) =
       Some (arg_default a)) /\
  (forall a arg_string,
     In a parser_arguments ->
     getitem (parse_args_namespace (seen ++ [(a, arg_string)])) (get_dest a)
     = Some match arg_action a with
            | store => PStr arg_string
            | store_true => PBool true
            end).
Proof.
  intros Hseen. split; [|split].
  - destruct (parse_args_namespace_vars seen Hseen) as [ns Hns].
    exists ns. split; [exact Hns|]. rewrite Hns. reflexivity.
  - intros a Ha Hnot. unfold parse_args_namespace.
    rewrite getitem_fold_other by exact Hnot.
    cbn [In parser_arguments] in Ha.
    repeat (destruct Ha as [<-|Ha]; [reflexivity|]). contradiction.
  - intros a arg_string Ha. unfold parse_args_namespace.
    rewrite fold_left_app. cbn [fold_left fst snd]. unfold call_action.
    rewrite getitem_setitem, String.eqb_refl. reflexivity.
Qed.

Lemma init_after_parse_args_witness :
  Upgrade_init_dict
    (parse_args_namespace
       [({| option_strings := ["--dry-run"];
            arg_action := store_true; arg_default := PBool false |},
         EmptyString);
        ({| option_strings := ["-n"; "--hub-name"];
            arg_action := store; arg_default := PStr "hub23" |},
         "demo")]) =
    inr (dynamic
           {| hub_name := "demo"; chart_name := "hub23-chart";
              cluster_name := "hub23cluster"; resource_group := "Hub23";
              subscription := "Turing-BinderHub"; identity := false;
              dry_run := true; debug := false |}) /\
  Upgrade_init_dict (parse_args_namespace []) =
    inr (dynamic (Upgrade_init parse_args_defaults)).
Proof.
  split.
  - destruct (init_after_parse_args
                [({| option_strings := ["--dry-run"];
                     arg_action := store_true;
                     arg_default := PBool false |}, EmptyString);
                 ({| option_strings := ["-n"; "--hub-name"];
                     arg_action := store; arg_default := PStr "hub23" |},
                  "demo")]) as [(ns & Hns & Hinit) _].
    + intros o Ho. cbn [In] in Ho.
      repeat (destruct Ho as [<-|Ho]; [cbn [fst In parser_arguments]; tauto|]).
      contradiction.
    + rewrite Hinit. vm_compute in Hns. destruct ns.
      injection Hns as <- <- <- <- <- <- <- <-. reflexivity.
  - reflexivity.
Defined.

(** A flag of the namespace is [True] exactly when its option was met:
    [store_true] is the only action that writes it and nothing writes
    [False]. *)
Lemma flag_met opt key :
  (forall a, In a parser_arguments ->
     if existsb (String.eqb opt) (option_strings a)
     then get_dest a = key /\ arg_action a = store_true
     else get_dest a <> key) ->
  forall seen,
    (forall o, In o seen -> In (fst o) parser_arguments) ->
    forall d b,
      getitem d key = Some (PBool b) ->
      getitem (fold_left (fun ns o => call_action ns (fst o) (snd o)) seen d)
        key = Some (PBool (b || met opt seen)).
Proof.
  intros Hopt.
  induction seen as [|[a s] seen IH]; intros Hseen d b Hd;
    cbn [fold_left met existsb fst snd].
  - rewrite orb_false_r. exact Hd.
  - assert (Ha : In a parser_arguments)
      by (apply (Hseen (a, s)); left; reflexivity).
    assert (Hseen' : forall o, In o seen -> In (fst o) parser_arguments)
      by (intros o Ho; apply Hseen; right; exact Ho).
    specialize (Hopt a Ha). fold (met opt seen).
    destruct (existsb (String.eqb opt) (option_strings a)).
    + destruct Hopt as [Hdest Hact].
      rewrite (IH Hseen' _ true).
      * rewrite orb_true_r. reflexivity.
      * unfold call_action. rewrite getitem_setitem, Hdest, Hact.
        rewrite String.eqb_refl. reflexivity.
    + rewrite (IH Hseen' _ b); [reflexivity|].
      unfold call_action. rewrite getitem_setitem.
      destruct (String.eqb_spec (get_dest a) key) as [Heq|_];
        [contradiction | exact Hd].
Qed.

(** X13.  From the command line to the commands.  When the namespace of
    [parse_args] is that of [ns], the three flags of [ns] are set exactly
    when [--identity], [--dry-run] and [--debug] were met, however often
    and wherever on the command line.  So the script's first command is
    [az login], with [--identity] exactly when that option was met, and its
    sixth command is the helm upgrade of the hub and chart of [ns] with
    [--dry-run] and [--debug] exactly when those options were met. *)
Theorem command_line_flags env seen ns dir :
  (forall o, In o seen -> In (fst o) parser_arguments) ->
  parse_args_namespace seen = vars ns ->
  (arg_identity ns = met "--identity" seen /\
   arg_dry_run ns = met "--dry-run" seen /\
   arg_debug ns = met "--debug" seen) /\
  (forall c,
     hd_error (commands (trace (snd (main env ns dir)))) = Some c ->
     c = ["az"; "login"] ++
         (if met "--identity" seen then ["--identity"] else [])) /\
  (forall c,
     nth_error (commands (trace (snd (main env ns dir)))) 5 = Some c ->
     c = ["helm"; "upgrade"; arg_hub_name ns; arg_chart_name ns;
          "-f"; "deploy/prod.yaml"; "-f"; ".secret/prod.yaml"; "--wait"]
         ++ (if met "--dry-run" seen then ["--dry-run"] else [])
         ++ (if met "--debug" seen then ["--debug"] else [])).
Proof.
  intros Hseen Hns.
  assert (Hflag : forall opt key,
            (forall a, In a parser_arguments ->
               if existsb (String.eqb opt) (option_strings a)
               then get_dest a = key /\ arg_action a = store_true
               else get_dest a <> key) ->
            getitem namespace_defaults key = Some (PBool false) ->
            getitem (vars ns) key = Some (PBool (met opt seen))).
  { intros opt key Hopt Hd. rewrite <- Hns. unfold parse_args_namespace.
    rewrite (flag_met opt key Hopt seen Hseen _ false Hd). reflexivity. }
  assert (Hid : arg_identity ns = met "--identity" seen).
  { assert (H : getitem (vars ns) "identity" =
                Some (PBool (met "--identity" seen))).
    { apply Hflag; [|reflexivity].
      intros a Ha. cbn [In parser_arguments] in Ha.
      repeat (destruct Ha as [<-|Ha];
              [vm_compute; first [split; reflexivity | discriminate]|]).
      contradiction. }
    cbn in H. congruence. }
  assert (Hdry : arg_dry_run ns = met "--dry-run" seen).
  { assert (H : getitem (vars ns) "dry_run" =
                Some (PBool (met "--dry-run" seen))).
    { apply Hflag; [|reflexivity].
      intros a Ha. cbn [In parser_arguments] in Ha.
      repeat (destruct Ha as [<-|Ha];
              [vm_compute; first [split; reflexivity | discriminate]|]).
      contradiction. }
    cbn in H. congruence. }
  assert (Hdbg : arg_debug ns = met "--debug" seen).
  { assert (H : getitem (vars ns) "debug" =
                Some (PBool (met "--debug" seen))).
    { apply Hflag; [|reflexivity].
      intros a Ha. cbn [In parser_arguments] in Ha.
      repeat (destruct Ha as [<-|Ha];
              [vm_compute; first [split; reflexivity | discriminate]|]).
      contradiction. }
    cbn in H. congruence. }
  split; [repeat split; assumption|].
  unfold main.
  change (trace (snd (upgrade env {| bot := Upgrade_init ns; cwd := dir;
                                     trace := [] |})))
    with (emitted (fresh (Upgrade_init ns) dir)
            (snd (upgrade env (fresh (Upgrade_init ns) dir)))).
  rewrite <- Hid, <- Hdry, <- Hdbg. split; intros c H.
  - assert (H0 : nth_error
                   (commands
                      (emitted (fresh (Upgrade_init ns) dir)
                         (snd (upgrade env (fresh (Upgrade_init ns) dir)))))
                   0 = Some c).
    { destruct (commands _); [discriminate H | exact H]. }
    apply upgrade_commands_nth in H0. injection H0 as <-. reflexivity.
  - apply upgrade_commands_nth in H. injection H as <-. reflexivity.
Qed.

Lemma command_line_flags_witness :
  met "--dry-run"
    [({| option_strings := ["--dry-run"]; arg_action := store_true;
         arg_default := PBool false |}, EmptyString)] = true /\
  nth_error
    (commands (trace (snd (main ok_env dry_run_args srv)))) 5 =
    Some ["helm"; "upgrade"; "hub23"; "hub23-chart";
          "-f"; "deploy/prod.yaml"; "-f"; ".secret/prod.yaml"; "--wait";
          "--dry-run"].
Proof.
  destruct (command_line_flags ok_env
              [({| option_strings := ["--dry-run"];
                   arg_action := store_true;
                   arg_default := PBool false |}, EmptyString)]
              dry_run_args srv) as (_ & _ & Hup).
  - intros o Ho. cbn [In] in Ho.
    repeat (destruct Ho as [<-|Ho]; [cbn [fst In parser_arguments]; tauto|]).
    contradiction.
  - reflexivity.
  - split; [reflexivity|].
    assert (H : exists c,
               nth_error
                 (commands (trace (snd (main ok_env dry_run_args srv)))) 5 =
               Some c) by (vm_compute; eexists; reflexivity).
    destruct H as [c H]. rewrite H. f_equal. exact (Hup c H).
Defined.
